(** * Session and credential core of k8s-ai

    Shallow embedding of [k8s_ai/utils/cluster_sessions.py] and of the
    parts of [k8s_ai/utils/k8s_client.py] it uses.

    Modelling conventions:
    - a parsed kubeconfig document is a [Yaml] value, Python dicts being
      association lists with distinct keys (as PyYAML builds them);
    - Python exceptions are the constructors of [PyError], a call that may
      raise returns a [result];
    - timestamps and TTLs are rationals counted in hours ([datetime] and
      [timedelta(hours=...)]), a timestamp being the hours elapsed since
      [datetime.min]; the range of [datetime] is modelled, the rounding of
      a [timedelta] to whole microseconds is not; [ttl_hours] is finite;
    - [register_cluster] reads the clock three times (the expiry, the new
      session's [created_at], the final sweep); every other registry
      operation, a sweep included, reads it once;
    - Python objects that are shared by reference ([ClusterSession],
      [DynamicKubernetesClient]) live in heaps indexed by [nat];
    - the libraries the code calls (PyYAML's [safe_load], [base64] with
      [.decode("utf-8")], [open(...).read()], [secrets]) are parameters:
      an [Env] record, resp. the random suffix passed to [register]. *)

From Stdlib Require Import QArith Lqa.
From stdpp Require Import base gmap list strings.

#[local] Set Warnings "-register-all".
Open Scope string_scope.

(* ------------------------------------------------------------------ *)
(** ** Parsed YAML values and Python errors *)

Inductive Yaml : Type :=
| YNull
| YBool (b : bool)
| YInt (z : Z)
| YStr (s : string)
| YList (items : list Yaml)
| YMap (fields : list (string * Yaml)).

(** The exceptions the modelled code raises; the text of an
    [OverflowError] is not modelled. *)
Inductive PyError : Type :=
| ValueError (msg : string)
| KeyError (key : string)
| TypeError
| AttributeError
| OSError (path : string)
| OverflowError.

Inductive result (A : Type) : Type :=
| Ok (a : A)
| Err (e : PyError).
Arguments Ok {A} a.
Arguments Err {A} e.

Definition rbind {A B : Type} (m : result A) (f : A -> result B) : result B :=
  match m with Ok a => f a | Err e => Err e end.

(** [let* x := m in k] runs [m] and, unless it raised, continues with [k]. *)
Notation "'let*' x ':=' m 'in' k" := (rbind m (fun x => k))
  (at level 200, x name, m at level 100, k at level 200).
Notation "'let*' ' p ':=' m 'in' k" := (rbind m (fun x => match x with p => k end))
  (at level 200, p pattern, m at level 100, k at level 200).

(** First binding of a key in a mapping. *)
Fixpoint assoc (k : string) (kv : list (string * Yaml)) : option Yaml :=
  match kv with
  | [] => None
  | (k', v) :: rest => if String.eqb k k' then Some v else assoc k rest
  end.

(** Python truthiness of a value. *)
Definition py_truthy (v : Yaml) : bool :=
  match v with
  | YNull => false
  | YBool b => b
  | YInt z => negb (Z.eqb z 0)
  | YStr s => negb (String.eqb s "")
  | YList l => negb (Nat.eqb (length l) 0)
  | YMap kv => negb (Nat.eqb (length kv) 0)
  end.

(** Python [==] (with [True == 1], [False == 0]; dicts compared as
    key-to-value maps). *)
Fixpoint py_eq (a b : Yaml) : bool :=
  match a, b with
  | YNull, YNull => true
  | YBool x, YBool y => Bool.eqb x y
  | YBool x, YInt z => Z.eqb z (Z.b2z x)
  | YInt z, YBool x => Z.eqb z (Z.b2z x)
  | YInt x, YInt y => Z.eqb x y
  | YStr x, YStr y => String.eqb x y
  | YList xs, YList ys =>
      (fix go (xs ys : list Yaml) : bool :=
         match xs, ys with
         | [], [] => true
         | x :: xs', y :: ys' => py_eq x y && go xs' ys'
         | _, _ => false
         end) xs ys
  | YMap xs, YMap ys =>
      Nat.eqb (length xs) (length ys) &&
      (fix go (xs : list (string * Yaml)) : bool :=
         match xs with
         | [] => true
         | (k, v) :: xs' =>
             match assoc k ys with
             | Some w => py_eq v w
             | None => false
             end && go xs'
         end) xs
  | _, _ => false
  end.

(** Substring test, for [k in s] on a string [s]. *)
Fixpoint str_contains (k s : string) : bool :=
  String.prefix k s ||
  match s with
  | EmptyString => false
  | String _ s' => str_contains k s'
  end.

Fixpoint str_chars (s : string) : list Yaml :=
  match s with
  | EmptyString => []
  | String c s' => YStr (String c EmptyString) :: str_chars s'
  end.

(** [d[k]] with a string key. *)
Definition py_getitem (d : Yaml) (k : string) : result Yaml :=
  match d with
  | YMap kv => match assoc k kv with Some v => Ok v | None => Err (KeyError k) end
  | _ => Err TypeError
  end.

(** [d.get(k, default)]. *)
Definition py_dict_get (d : Yaml) (k : string) (default : Yaml) : result Yaml :=
  match d with
  | YMap kv => match assoc k kv with Some v => Ok v | None => Ok default end
  | _ => Err AttributeError
  end.

(** [k in d] with a string [k]. *)
Definition py_in (k : string) (d : Yaml) : result bool :=
  match d with
  | YMap kv => Ok (bool_decide (k ∈ map fst kv))
  | YList l => Ok (existsb (py_eq (YStr k)) l)
  | YStr s => Ok (str_contains k s)
  | _ => Err TypeError
  end.

(** [for x in v]. *)
Definition py_iter (v : Yaml) : result (list Yaml) :=
  match v with
  | YList l => Ok l
  | YMap kv => Ok (map (fun p => YStr (fst p)) kv)
  | YStr s => Ok (str_chars s)
  | _ => Err TypeError
  end.

(** [next((x for x in items if x["name"] == name), None)]: the generator
    is lazy, so entries after the first match are never indexed. *)
Fixpoint next_named (items : list Yaml) (name : Yaml) : result (option Yaml) :=
  match items with
  | [] => Ok None
  | x :: rest =>
      let* n := py_getitem x "name" in
      if py_eq n name then Ok (Some x) else next_named rest name
  end.

(** [next((x for x in kubeconfig.get(key, []) if x["name"] == name), None)] *)
Definition find_named (kubeconfig : Yaml) (key : string) (name : Yaml)
  : result (option Yaml) :=
  let* l := py_dict_get kubeconfig key (YList []) in
  let* items := py_iter l in
  next_named items name.

(* ------------------------------------------------------------------ *)
(** ** Libraries and the operating system *)

Record Env : Type := mkEnv {
  (** [yaml.safe_load]; [None] is a [yaml.YAMLError] *)
  yaml_safe_load : string -> option Yaml;
  (** [base64.b64decode(s).decode("utf-8")]; [None] is a
      [binascii.Error] or [UnicodeDecodeError] (both [ValueError]s) *)
  b64decode_utf8 : string -> option string;
  (** [open(path).read()]; [None] is an [OSError] *)
  read_file : string -> option string
}.

Definition py_b64decode_utf8 (env : Env) (v : Yaml) : result string :=
  match v with
  | YStr s =>
      match b64decode_utf8 env s with
      | Some t => Ok t
      | None => Err (ValueError "Invalid base64-encoded string")
      end
  | _ => Err TypeError
  end.

(** [open(path).read()] on a path string (integer file descriptors are
    outside the model and raise [TypeError] here). *)
Definition py_read_file (env : Env) (v : Yaml) : result string :=
  match v with
  | YStr p => match read_file env p with Some t => Ok t | None => Err (OSError p) end
  | _ => Err TypeError
  end.

(* ------------------------------------------------------------------ *)
(** ** [KubernetesCredentials] and the credential extractor *)

(** Fields copied verbatim from the document keep their YAML value;
    decoded or file-read material is a string. *)
Record KubernetesCredentials : Type := mkCredentials {
  api_server : Yaml;
  token : Yaml;
  ca_certificate : string;
  namespace : Yaml;
  client_cert : string;
  client_key : string
}.

(** Truthiness of an [Optional[str]] argument. *)
Definition opt_str_truthy (o : option string) : bool :=
  match o with Some s => negb (String.eqb s "") | None => false end.

(** Lines 133-150: the context chosen by name or by [current-context]. *)
Definition select_context (kubeconfig : Yaml) (context_name : option string)
  : result Yaml :=
  if opt_str_truthy context_name then
    let* context := find_named kubeconfig "contexts" (YStr (default "" context_name)) in
    match context with
    | Some c => if py_truthy c then Ok c
                else Err (ValueError "Context not found in kubeconfig")
    | None => Err (ValueError "Context not found in kubeconfig")
    end
  else
    let* current_context := py_dict_get kubeconfig "current-context" YNull in
    if negb (py_truthy current_context) then
      Err (ValueError "No current-context in kubeconfig and no context specified")
    else
      let* context := find_named kubeconfig "contexts" current_context in
      match context with
      | Some c => if py_truthy c then Ok c
                  else Err (ValueError "Current context not found")
      | None => Err (ValueError "Current context not found")
      end.

(** Lines 152-171: the namespace of the context and the cluster and user
    entries it references. *)
Definition resolve_entries (kubeconfig : Yaml) (context_name : option string)
  : result (Yaml * Yaml * Yaml) :=
  let* context := select_context kubeconfig context_name in
  let* cc := py_getitem context "context" in
  let* cluster_name := py_getitem cc "cluster" in
  let* user_name := py_getitem cc "user" in
  let* namespace := py_dict_get cc "namespace" (YStr "default") in
  let* cluster := find_named kubeconfig "clusters" cluster_name in
  match cluster with
  | Some cl =>
      if py_truthy cl then
        let* user := find_named kubeconfig "users" user_name in
        match user with
        | Some u =>
            if py_truthy u then Ok (namespace, cl, u)
            else Err (ValueError "User not found in kubeconfig")
        | None => Err (ValueError "User not found in kubeconfig")
        end
      else Err (ValueError "Cluster not found in kubeconfig")
  | None => Err (ValueError "Cluster not found in kubeconfig")
  end.

(** Lines 177-186: the CA material, inline or file-referenced. *)
Definition extract_ca (env : Env) (cluster_info : Yaml) : result string :=
  let* has_data := py_in "certificate-authority-data" cluster_info in
  if has_data then
    let* d := py_getitem cluster_info "certificate-authority-data" in
    py_b64decode_utf8 env d
  else
    let* has_file := py_in "certificate-authority" cluster_info in
    if has_file then
      let* f := py_getitem cluster_info "certificate-authority" in
      py_read_file env f
    else Ok "".

(** Lines 188-210: the authentication material as (token, client_cert,
    client_key); the bearer token is tested first. *)
Definition extract_auth (env : Env) (user_info : Yaml)
  : result (Yaml * string * string) :=
  let* has_token := py_in "token" user_info in
  if has_token then
    let* t := py_getitem user_info "token" in
    Ok (t, "", "")
  else
    let* has_cd := py_in "client-certificate-data" user_info in
    let* has_kd := (if has_cd then py_in "client-key-data" user_info else Ok false : result bool) in
    if has_kd then
      let* cd := py_getitem user_info "client-certificate-data" in
      let* client_cert := py_b64decode_utf8 env cd in
      let* kd := py_getitem user_info "client-key-data" in
      let* client_key := py_b64decode_utf8 env kd in
      Ok (YStr "", client_cert, client_key)
    else
      let* has_cf := py_in "client-certificate" user_info in
      let* has_kf := (if has_cf then py_in "client-key" user_info else Ok false : result bool) in
      if has_kf then
        let* cf := py_getitem user_info "client-certificate" in
        let* client_cert := py_read_file env cf in
        let* kf := py_getitem user_info "client-key" in
        let* client_key := py_read_file env kf in
        Ok (YStr "", client_cert, client_key)
      else Err (ValueError "No supported authentication method found in kubeconfig").

(** [ClusterSessionManager._extract_credentials_from_kubeconfig] *)
Definition extract_credentials (env : Env) (kubeconfig : Yaml)
  (context_name : option string) : result KubernetesCredentials :=
  let* '(namespace, cluster, user) := resolve_entries kubeconfig context_name in
  let* cluster_info := py_getitem cluster "cluster" in
  let* api_server := py_getitem cluster_info "server" in
  let* ca_certificate := extract_ca env cluster_info in
  let* user_info := py_getitem user "user" in
  let* '(token, client_cert, client_key) := extract_auth env user_info in
  Ok (mkCredentials api_server token ca_certificate namespace client_cert client_key).

(* ------------------------------------------------------------------ *)
(** ** Sessions, client handles and the registry store *)

(** The kubernetes library's [ApiClient], reduced to what [close()]
    touches: [ac_pool] says whether its [_pool] is set. The constructor
    leaves [_pool] at [None]; the [pool] property creates the thread pool
    on the first asynchronous request, which nothing in this code makes.
    [close()] closes and joins the pool when there is one and resets
    [_pool] to [None]; otherwise it does nothing. *)
Record ApiClient : Type := mkApiClient {
  ac_pool : bool
}.

(** [DynamicKubernetesClient]: credentials and the lazily built
    [_api_client]. *)
Record DynamicKubernetesClient : Type := mkDynClient {
  dk_credentials : KubernetesCredentials;
  dk_api_client : option ApiClient
}.

(** [ClusterSession]; [k8s_client] is the memo slot [_k8s_client], a
    reference into the client heap. *)
Record ClusterSession : Type := mkSession {
  session_token : string;
  cluster_name : string;
  credentials : KubernetesCredentials;
  expires_at : Q;
  created_at : Q;
  k8s_client : option nat
}.

(** The process state: the manager's [_sessions] dict (token to session
    reference), the objects, and a count of resource releases done by
    [ApiClient.close()]. *)
Record Store : Type := mkStore {
  sessions : gmap string nat;
  sess_heap : list ClusterSession;
  client_heap : list DynamicKubernetesClient;
  releases : nat
}.

Definition empty_store : Store := mkStore ∅ [] [] 0.

Definition set_k8s_client (s : ClusterSession) (c : nat) : ClusterSession :=
  mkSession (session_token s) (cluster_name s) (credentials s)
    (expires_at s) (created_at s) (Some c).

Definition set_sessions (st : Store) (m : gmap string nat) : Store :=
  mkStore m (sess_heap st) (client_heap st) (releases st).

(** [ClusterSession.is_expired]: [utcnow() > expires_at]. *)
Definition is_expired (s : ClusterSession) (now : Q) : bool :=
  negb (Qle_bool now (expires_at s)).

(** [ClusterSession.get_k8s_client]; [None] only on a dangling reference,
    which no Python program can hold. *)
Definition get_k8s_client (r : nat) (st : Store) : option nat * Store :=
  match sess_heap st !! r with
  | Some s =>
      match k8s_client s with
      | Some c => (Some c, st)
      | None =>
          let c := length (client_heap st) in
          (Some c,
           mkStore (sessions st) (<[r := set_k8s_client s c]> (sess_heap st))
             (client_heap st ++ [mkDynClient (credentials s) None]) (releases st))
      end
  | None => (None, st)
  end.

(** [DynamicKubernetesClient.get_api_client]: a new [ApiClient], without a
    pool, when none is stored (its configuration, built by
    [_create_configuration], is not part of the store; writing its
    temporary files is taken to succeed). *)
Definition get_api_client (c : nat) (st : Store) : Store :=
  match client_heap st !! c with
  | Some d =>
      match dk_api_client d with
      | Some _ => st
      | None =>
          mkStore (sessions st) (sess_heap st)
            (<[c := mkDynClient (dk_credentials d) (Some (mkApiClient false))]>
               (client_heap st)) (releases st)
      end
  | None => st
  end.

(** [ApiClient.close()]; [n] counts the pools released. *)
Definition api_client_close (a : ApiClient) (n : nat) : ApiClient * nat :=
  if ac_pool a then (mkApiClient false, S n) else (a, n).

(** [DynamicKubernetesClient.close()]: [if self._api_client: ...close()] *)
Definition dk_close (c : nat) (st : Store) : Store :=
  match client_heap st !! c with
  | Some d =>
      match dk_api_client d with
      | Some a =>
          let '(a', n) := api_client_close a (releases st) in
          mkStore (sessions st) (sess_heap st)
            (<[c := mkDynClient (dk_credentials d) (Some a')]> (client_heap st)) n
      | None => st
      end
  | None => st
  end.

(** [ClusterSession.cleanup()]: [if self._k8s_client: ...close()] *)
Definition session_cleanup (r : nat) (st : Store) : Store :=
  match sess_heap st !! r with
  | Some s =>
      match k8s_client s with
      | Some c => dk_close c st
      | None => st
      end
  | None => st
  end.

(** [ClusterSessionManager.unregister_cluster]: [pop], then [cleanup()]. *)
Definition unregister_cluster (tok : string) (st : Store) : bool * Store :=
  match sessions st !! tok with
  | Some r => (true, session_cleanup r (set_sessions st (delete tok (sessions st))))
  | None => (false, st)
  end.

Definition ref_expired (st : Store) (now : Q) (r : nat) : bool :=
  match sess_heap st !! r with Some s => is_expired s now | None => false end.

(** [ClusterSessionManager._cleanup_expired_sessions]: the expired tokens
    are collected first, then each is unregistered. *)
Definition cleanup_expired_sessions (now : Q) (st : Store) : Store :=
  let expired_tokens :=
    map fst (filter (fun p => ref_expired st now p.2 = true) (map_to_list (sessions st))) in
  foldl (fun st tok => (unregister_cluster tok st).2) st expired_tokens.

(** [ClusterSessionManager.get_session]; the result is the session
    reference, [None] for Python's [None]. *)
Definition get_session (tok : string) (now : Q) (st : Store) : option nat * Store :=
  match sessions st !! tok with
  | Some r =>
      match sess_heap st !! r with
      | Some s =>
          if is_expired s now then (None, (unregister_cluster tok st).2)
          else (Some r, st)
      | None => (Some r, st)
      end
  | None => (None, st)
  end.

(** [ClusterSession.to_dict] *)
Record SessionInfo : Type := mkSessionInfo {
  si_session_token : string;
  si_cluster_name : string;
  si_api_server : Yaml;
  si_namespace : Yaml;
  si_created_at : Q;
  si_expires_at : Q;
  si_is_expired : bool
}.

Definition to_dict (s : ClusterSession) (now : Q) : SessionInfo :=
  mkSessionInfo (session_token s) (cluster_name s) (api_server (credentials s))
    (namespace (credentials s)) (created_at s) (expires_at s) (is_expired s now).

(** [ClusterSessionManager.list_sessions]: sweep, then one record per
    remaining session (the map's order stands for the dict's). *)
Definition list_sessions (now : Q) (st : Store) : list SessionInfo * Store :=
  let st' := cleanup_expired_sessions now st in
  (omap (fun p => (fun s => to_dict s now) <$> sess_heap st' !! p.2)
     (map_to_list (sessions st')), st').

(** [ClusterSessionManager._generate_session_token]; [rnd] is the value
    of [secrets.token_urlsafe(32)]. *)
Definition generate_session_token (rnd : string) : string :=
  String.append "holmes-session-" rnd.

(** The instants a [datetime] can hold: from [datetime.min] (hour 0) up
    to the end of the day of [datetime.max] (ordinal 3652059). *)
Definition datetime_end : Q := (3652059 * 24)%Q.

Definition datetime_in_range (t : Q) : bool :=
  Qle_bool 0 t && negb (Qle_bool datetime_end t).

(** [datetime.utcnow() + timedelta(hours=ttl_hours)]: [OverflowError]
    when the sum leaves the range of [datetime] (a [timedelta] too large
    for its own range only occurs then too). *)
Definition add_hours (now ttl_hours : Q) : result Q :=
  if datetime_in_range (now + ttl_hours) then Ok (now + ttl_hours)%Q else Err OverflowError.

(** The three [datetime.utcnow()] readings of one [register_cluster] call:
    line 90 (the expiry), [ClusterSession.__init__] ([created_at]) and the
    sweep of line 104. *)
Record RegisterClock : Type := mkRegisterClock {
  clk_expiry : Q;
  clk_created : Q;
  clk_sweep : Q
}.

(** Lines 75-106 of [register_cluster], after the TTL check. *)
Definition register_checked (env : Env) (st : Store) (cluster_name : string)
  (kubeconfig_yaml : string) (context : option string) (ttl_hours : Q)
  (clk : RegisterClock) (rnd : string) : result string * Store :=
  match yaml_safe_load env kubeconfig_yaml with
  | None => (Err (ValueError "Invalid kubeconfig YAML"), st)
  | Some kubeconfig =>
      match extract_credentials env kubeconfig context with
      | Err e => (Err e, st)
      | Ok creds =>
          let session_token := generate_session_token rnd in
          match add_hours (clk_expiry clk) ttl_hours with
          | Err e => (Err e, st)
          | Ok expires_at =>
              let r := length (sess_heap st) in
              let session :=
                mkSession session_token cluster_name creds expires_at (clk_created clk) None in
              let st1 := mkStore (<[session_token := r]> (sessions st))
                           (sess_heap st ++ [session]) (client_heap st) (releases st) in
              (Ok session_token, cleanup_expired_sessions (clk_sweep clk) st1)
          end
      end
  end.

(** [ClusterSessionManager.register_cluster]: the only TTL check is the
    upper bound. *)
Definition register_cluster (env : Env) (st : Store) (cluster_name : string)
  (kubeconfig_yaml : string) (context : option string) (ttl_hours : Q)
  (clk : RegisterClock) (rnd : string) : result string * Store :=
  if negb (Qle_bool ttl_hours 168) then
    (Err (ValueError "TTL cannot exceed 168 hours (7 days)"), st)
  else register_checked env st cluster_name kubeconfig_yaml context ttl_hours clk rnd.

(** Readings that all fall on the instant [t]. *)
Definition clock_at (t : Q) : RegisterClock := mkRegisterClock t t t.

(** The calls a program makes on the subsystem, one at a time. *)
Inductive Op : Type :=
| OpRegister (cluster_name kubeconfig_yaml : string) (context : option string)
    (ttl_hours : Q) (clk : RegisterClock) (rnd : string)
| OpGetSession (tok : string) (now : Q)
| OpUnregister (tok : string)
| OpListSessions (now : Q)
| OpGetK8sClient (r : nat)
| OpGetApiClient (c : nat)
| OpCleanup (r : nat).

Definition step (env : Env) (op : Op) (st : Store) : Store :=
  match op with
  | OpRegister cn kc ctx ttl clk rnd => (register_cluster env st cn kc ctx ttl clk rnd).2
  | OpGetSession tok now => (get_session tok now st).2
  | OpUnregister tok => (unregister_cluster tok st).2
  | OpListSessions now => (list_sessions now st).2
  | OpGetK8sClient r => (get_k8s_client r st).2
  | OpGetApiClient c => get_api_client c st
  | OpCleanup r => session_cleanup r st
  end.

Fixpoint run (env : Env) (ops : list Op) (st : Store) : Store :=
  match ops with
  | [] => st
  | op :: rest => run env rest (step env op st)
  end.

(** The memo slot of session [r] is empty. *)
Definition slot_empty (r : nat) (st : Store) : bool :=
  match sess_heap st !! r with
  | Some s => match k8s_client s with None => true | Some _ => false end
  | None => false
  end.

(** Does [op] construct a [DynamicKubernetesClient] for session [r]? *)
Definition constructs_client (r : nat) (op : Op) (st : Store) : bool :=
  match op with
  | OpGetK8sClient r' => Nat.eqb r r' && slot_empty r st
  | _ => false
  end.

Fixpoint client_constructions (env : Env) (r : nat) (ops : list Op) (st : Store) : nat :=
  match ops with
  | [] => 0
  | op :: rest =>
      (if constructs_client r op st then 1 else 0)
      + client_constructions env r rest (step env op st)
  end.

(** Every key of the dict maps to a session object carrying that key as
    its token. *)
Definition store_wf (st : Store) : bool :=
  forallb (fun p => match sess_heap st !! p.2 with
                    | Some s => String.eqb (session_token s) p.1
                    | None => false
                    end) (map_to_list (sessions st)).

(* ------------------------------------------------------------------ *)
(** ** A concrete environment and kubeconfig *)

Definition prod_cluster : Yaml :=
  YMap [("name", YStr "prod");
        ("cluster", YMap [("server", YStr "https://10.0.0.1:6443");
                          ("certificate-authority-data", YStr "Q0EtUEVN")])].

Definition svc_user : Yaml :=
  YMap [("name", YStr "svc"); ("user", YMap [("token", YStr "abc")])].

Definition ctx_a : Yaml :=
  YMap [("name", YStr "ctx-a");
        ("context", YMap [("cluster", YStr "prod"); ("user", YStr "svc")])].

Definition kubeconfig_a : Yaml :=
  YMap [("apiVersion", YStr "v1"); ("kind", YStr "Config");
        ("current-context", YStr "ctx-a");
        ("clusters", YList [prod_cluster]);
        ("contexts", YList [ctx_a]);
        ("users", YList [svc_user])].

(** The same document with the cluster's [server] line left out. *)
Definition kubeconfig_no_server : Yaml :=
  YMap [("current-context", YStr "ctx-a");
        ("clusters", YList [YMap [("name", YStr "prod");
                                  ("cluster", YMap [("certificate-authority-data",
                                                     YStr "Q0EtUEVN")])]]);
        ("contexts", YList [ctx_a]);
        ("users", YList [svc_user])].

Definition env0 : Env := mkEnv
  (fun s => if String.eqb s "kubeconfig-a" then Some kubeconfig_a
            else if String.eqb s "kubeconfig-no-server" then Some kubeconfig_no_server
            else None)
  (fun s => if String.eqb s "Q0EtUEVN" then Some "CA-PEM" else None)
  (fun _ => None).

Example extract_a :
  extract_credentials env0 kubeconfig_a (Some "ctx-a")
  = Ok (mkCredentials (YStr "https://10.0.0.1:6443") (YStr "abc") "CA-PEM"
          (YStr "default") "" "").
Proof. reflexivity. Qed.

Example extract_no_server :
  extract_credentials env0 kubeconfig_no_server None = Err (KeyError "server").
Proof. reflexivity. Qed.

Example register_zero_ttl :
  (register_cluster env0 empty_store "c" "kubeconfig-a" None 0 (clock_at 10) "x").1
  = Ok "holmes-session-x".
Proof. reflexivity. Qed.

(* ------------------------------------------------------------------ *)
(** ** Frame lemmas: which parts of the store each operation touches *)

(** The memo slot of session [r]. *)
Definition slot (r : nat) (st : Store) : option nat :=
  sess_heap st !! r ≫= k8s_client.

Lemma dk_close_frame (c : nat) (st : Store) :
  sessions (dk_close c st) = sessions st ∧ sess_heap (dk_close c st) = sess_heap st.
Proof.
  unfold dk_close. destruct (client_heap st !! c) as [d|]; [|done].
  destruct (dk_api_client d) as [a|]; [|done].
  destruct (api_client_close a (releases st)). done.
Qed.

Lemma session_cleanup_frame (r : nat) (st : Store) :
  sessions (session_cleanup r st) = sessions st
  ∧ sess_heap (session_cleanup r st) = sess_heap st.
Proof.
  unfold session_cleanup. destruct (sess_heap st !! r) as [s|]; [|done].
  destruct (k8s_client s); [apply dk_close_frame | done].
Qed.

Lemma unregister_frame (tok : string) (st : Store) :
  sessions (unregister_cluster tok st).2 = delete tok (sessions st)
  ∧ sess_heap (unregister_cluster tok st).2 = sess_heap st.
Proof.
  unfold unregister_cluster. destruct (sessions st !! tok) as [r|] eqn:E.
  - simpl. destruct (session_cleanup_frame r (set_sessions st (delete tok (sessions st))))
      as [H1 H2]. by rewrite H1, H2.
  - simpl. split; [|done]. by rewrite delete_id.
Qed.

Lemma foldl_unregister_frame (ts : list string) (st : Store) :
  sessions (foldl (fun st tok => (unregister_cluster tok st).2) st ts)
    = foldl (fun m t => delete t m) (sessions st) ts
  ∧ sess_heap (foldl (fun st tok => (unregister_cluster tok st).2) st ts)
    = sess_heap st.
Proof.
  revert st. induction ts as [|t ts IH]; intros st; simpl; [done|].
  destruct (IH ((unregister_cluster t st).2)) as [H1 H2].
  destruct (unregister_frame t st) as [U1 U2].
  rewrite H1, H2, U1, U2. done.
Qed.

Lemma foldl_delete_lookup (ts : list string) (m : gmap string nat) (k : string) :
  foldl (fun m t => delete t m) m ts !! k = if bool_decide (k ∈ ts) then None else m !! k.
Proof.
  revert m. induction ts as [|t ts IH]; intros m; cbn [foldl].
  - case_bool_decide as H; [by apply not_elem_of_nil in H | done].
  - rewrite IH. case_bool_decide as H1; case_bool_decide as H2; try done.
    + exfalso. apply H2, elem_of_cons. by right.
    + apply elem_of_cons in H2 as [->|?]; [apply lookup_delete_eq | done].
    + apply lookup_delete_ne. intros ->. apply H2, elem_of_cons. by left.
Qed.

Lemma cleanup_expired_frame (now : Q) (st : Store) :
  sess_heap (cleanup_expired_sessions now st) = sess_heap st
  ∧ ∀ k, sessions (cleanup_expired_sessions now st) !! k
         = match sessions st !! k with
           | Some r => if ref_expired st now r then None else Some r
           | None => None
           end.
Proof.
  unfold cleanup_expired_sessions.
  destruct (foldl_unregister_frame
              (map fst (filter (fun p => ref_expired st now p.2 = true)
                          (map_to_list (sessions st)))) st) as [H1 H2].
  split; [done|]. intros k. rewrite H1, foldl_delete_lookup.
  destruct (sessions st !! k) as [r|] eqn:E.
  - destruct (ref_expired st now r) eqn:X.
    + rewrite bool_decide_eq_true_2; [done|].
      apply list_elem_of_fmap. exists (k, r). split; [done|].
      apply list_elem_of_filter. split; [done|]. by apply elem_of_map_to_list.
    + rewrite bool_decide_eq_false_2; [done|].
      intros Hin. apply list_elem_of_fmap in Hin as [[k' r'] [Hk Hf]].
      simpl in Hk. subst k'.
      apply list_elem_of_filter in Hf as [Hx Hm]. simpl in Hx.
      apply elem_of_map_to_list in Hm. congruence.
  - by destruct (bool_decide (k ∈ _)).
Qed.

Lemma get_api_client_frame (c : nat) (st : Store) :
  sessions (get_api_client c st) = sessions st
  ∧ sess_heap (get_api_client c st) = sess_heap st.
Proof.
  unfold get_api_client. destruct (client_heap st !! c) as [d|]; [|done].
  destruct (dk_api_client d); done.
Qed.

Lemma get_session_heap (tok : string) (now : Q) (st : Store) :
  sess_heap (get_session tok now st).2 = sess_heap st.
Proof.
  unfold get_session. destruct (sessions st !! tok) as [r|]; [|done].
  destruct (sess_heap st !! r) as [s|]; [|done].
  destruct (is_expired s now); [apply unregister_frame | done].
Qed.

(** The store a successful registration builds before its sweep. *)
Definition register_inserted (st : Store) (cn : string) (creds : KubernetesCredentials)
  (expires created : Q) (rnd : string) : Store :=
  mkStore (<[generate_session_token rnd := length (sess_heap st)]> (sessions st))
    (sess_heap st ++ [mkSession (generate_session_token rnd) cn creds expires created None])%list
    (client_heap st) (releases st).

(** A registration raises and leaves the store alone, or returns the new
    token with the store swept after the insertion. *)
Lemma register_cases (env : Env) (st : Store) cn kc ctx ttl clk rnd :
  (∃ e, register_cluster env st cn kc ctx ttl clk rnd = (Err e, st))
  ∨ (∃ creds, register_cluster env st cn kc ctx ttl clk rnd
       = (Ok (generate_session_token rnd),
          cleanup_expired_sessions (clk_sweep clk)
            (register_inserted st cn creds (clk_expiry clk + ttl) (clk_created clk) rnd))).
Proof.
  unfold register_cluster, register_checked.
  destruct (negb (Qle_bool ttl 168)); [left; by eexists|].
  destruct (yaml_safe_load env kc) as [y|]; [|left; by eexists].
  destruct (extract_credentials env y ctx) as [creds|e]; [|left; by eexists].
  unfold add_hours. destruct (datetime_in_range (clk_expiry clk + ttl)); [|left; by eexists].
  right. by exists creds.
Qed.

Lemma register_heap (env : Env) (st : Store) cn kc ctx ttl clk rnd :
  sess_heap (register_cluster env st cn kc ctx ttl clk rnd).2 = sess_heap st
  ∨ ∃ s, sess_heap (register_cluster env st cn kc ctx ttl clk rnd).2
         = (sess_heap st ++ [s])%list.
Proof.
  destruct (register_cases env st cn kc ctx ttl clk rnd) as [[e H]|[creds H]];
    rewrite H; [by left|].
  right. eexists. simpl. rewrite (proj1 (cleanup_expired_frame _ _)). reflexivity.
Qed.

(** No operation empties a filled memo slot. *)
Lemma step_keeps_slot (env : Env) (op : Op) (st : Store) (r c : nat) :
  slot r st = Some c → slot r (step env op st) = Some c.
Proof.
  unfold slot. intros Hs.
  destruct (sess_heap st !! r) as [s|] eqn:E; simpl in Hs; [|discriminate].
  destruct op as [cn kc ctx ttl clk rnd|tok now|tok|now|r'|c'|r']; simpl.
  - destruct (register_heap env st cn kc ctx ttl clk rnd) as [H|[x H]];
      rewrite H; [by rewrite E|].
    by rewrite (lookup_app_l_Some _ _ _ _ E).
  - by rewrite get_session_heap, E.
  - by rewrite (proj2 (unregister_frame tok st)), E.
  - by rewrite (proj1 (cleanup_expired_frame now st)), E.
  - unfold get_k8s_client.
    destruct (sess_heap st !! r') as [s'|] eqn:E'; simpl; [|by rewrite E].
    destruct (k8s_client s') as [c'|] eqn:K; simpl; [by rewrite E|].
    destruct (decide (r' = r)) as [->|Hne]; [congruence|].
    by rewrite list_lookup_insert_ne, E.
  - by rewrite (proj2 (get_api_client_frame c' st)), E.
  - by rewrite (proj2 (session_cleanup_frame r' st)), E.
Qed.

Lemma run_keeps_slot (env : Env) (ops : list Op) (st : Store) (r c : nat) :
  slot r st = Some c → slot r (run env ops st) = Some c.
Proof.
  revert st. induction ops as [|op ops IH]; intros st Hs; simpl; [done|].
  apply IH, step_keeps_slot, Hs.
Qed.

Lemma get_k8s_client_filled (r c : nat) (st : Store) :
  slot r st = Some c → get_k8s_client r st = (Some c, st).
Proof.
  unfold slot, get_k8s_client. destruct (sess_heap st !! r) as [s|]; simpl; [|discriminate].
  intros ->. done.
Qed.

Lemma slot_empty_some (r c : nat) (st : Store) :
  slot r st = Some c → slot_empty r st = false.
Proof.
  unfold slot, slot_empty. destruct (sess_heap st !! r) as [s|]; simpl; [|done].
  by intros ->.
Qed.

Lemma get_k8s_client_fills (r : nat) (st : Store) :
  slot_empty r st = true → slot r (get_k8s_client r st).2 = Some (length (client_heap st)).
Proof.
  unfold slot_empty, slot, get_k8s_client.
  destruct (sess_heap st !! r) as [s|] eqn:E; [|discriminate].
  destruct (k8s_client s) eqn:K; [discriminate|]. intros _. simpl.
  rewrite list_lookup_insert_eq; [done|]. by eapply lookup_lt_Some.
Qed.

Lemma constructions_after_fill (env : Env) (r c : nat) (ops : list Op) (st : Store) :
  slot r st = Some c → client_constructions env r ops st = 0.
Proof.
  revert st. induction ops as [|op ops IH]; intros st Hs; simpl; [done|].
  rewrite (IH _ (step_keeps_slot env op st r c Hs)).
  destruct op; simpl; try done. by rewrite (slot_empty_some r c st Hs), andb_false_r.
Qed.

Lemma all_live_cleanup (now : Q) (st : Store) :
  (∀ tok r s, sessions (cleanup_expired_sessions now st) !! tok = Some r →
     sess_heap (cleanup_expired_sessions now st) !! r = Some s →
     is_expired s now = false).
Proof.
  destruct (cleanup_expired_frame now st) as [Hh Hs].
  intros tok r s H1 H2. rewrite Hs in H1. rewrite Hh in H2.
  destruct (sessions st !! tok) as [r0|]; [|discriminate].
  unfold ref_expired in H1. destruct (sess_heap st !! r0) as [s0|] eqn:E.
  - destruct (is_expired s0 now) eqn:X; [discriminate|]. congruence.
  - congruence.
Qed.

Lemma store_wf_spec (st : Store) :
  store_wf st = true →
  ∀ k r, sessions st !! k = Some r →
         ∃ s, sess_heap st !! r = Some s ∧ session_token s = k.
Proof.
  unfold store_wf. intros H k r Hk.
  apply elem_of_map_to_list, list_elem_of_In in Hk.
  pose proof (proj1 (forallb_forall _ _) H _ Hk) as Hx. simpl in Hx.
  destruct (sess_heap st !! r) as [s|]; [|discriminate].
  exists s. split; [done|]. by apply String.eqb_eq.
Qed.

Definition wf_prop (st : Store) : Prop :=
  ∀ k r, sessions st !! k = Some r →
         ∃ s, sess_heap st !! r = Some s ∧ session_token s = k.

Lemma wf_prop_store_wf (st : Store) : wf_prop st → store_wf st = true.
Proof.
  intros H. unfold store_wf. apply forallb_forall. intros [k r] Hin.
  apply list_elem_of_In, elem_of_map_to_list in Hin.
  destruct (H k r Hin) as [s [Hs <-]]. simpl. rewrite Hs. apply String.eqb_refl.
Qed.

(** Removing entries from the dict, the heap unchanged, keeps [wf_prop]. *)
Lemma wf_prop_shrink (st st' : Store) :
  sess_heap st' = sess_heap st →
  (∀ k r, sessions st' !! k = Some r → sessions st !! k = Some r) →
  wf_prop st → wf_prop st'.
Proof. intros Hh Hs H k r Hk. rewrite Hh. by apply H, Hs. Qed.

Lemma wf_prop_unregister (tok : string) (st : Store) :
  wf_prop st → wf_prop (unregister_cluster tok st).2.
Proof.
  destruct (unregister_frame tok st) as [U1 U2]. apply wf_prop_shrink; [done|].
  intros k r. rewrite U1. destruct (decide (k = tok)) as [->|Hne].
  - by rewrite lookup_delete_eq.
  - by rewrite lookup_delete_ne by congruence.
Qed.

Lemma wf_prop_cleanup (now : Q) (st : Store) :
  wf_prop st → wf_prop (cleanup_expired_sessions now st).
Proof.
  destruct (cleanup_expired_frame now st) as [C1 C2]. apply wf_prop_shrink; [done|].
  intros k r. rewrite C2. destruct (sessions st !! k); [|done].
  by destruct (ref_expired st now _).
Qed.

Lemma wf_prop_step (env : Env) (op : Op) (st : Store) :
  wf_prop st → wf_prop (step env op st).
Proof.
  intros H.
  destruct op as [cn kc ctx ttl clk rnd|tok now|tok|now|r'|c'|r']; simpl.
  - destruct (register_cases env st cn kc ctx ttl clk rnd) as [[e E]|[creds E]];
      rewrite E; [done|].
    simpl. apply wf_prop_cleanup. intros k r. simpl.
    destruct (decide (k = generate_session_token rnd)) as [->|Hne].
    + rewrite lookup_insert_eq. intros [= <-].
      rewrite lookup_app_r, Nat.sub_diag by lia. simpl. by eexists.
    + rewrite lookup_insert_ne by congruence. intros Hk.
      destruct (H k r Hk) as [s [Hs Ht]]. exists s.
      split; [by apply lookup_app_l_Some | done].
  - unfold get_session. destruct (sessions st !! tok) as [r|]; [|done].
    destruct (sess_heap st !! r) as [s|]; [|done].
    destruct (is_expired s now); [by apply wf_prop_unregister | done].
  - by apply wf_prop_unregister.
  - by apply wf_prop_cleanup.
  - unfold get_k8s_client. destruct (sess_heap st !! r') as [s'|] eqn:E; [|done].
    destruct (k8s_client s'); [done|]. intros k r Hk. cbn [fst snd sess_heap sessions] in *.
    destruct (H k r Hk) as [s [Hs Ht]].
    destruct (decide (r' = r)) as [->|Hne].
    + exists (set_k8s_client s' (length (client_heap st))).
      rewrite list_lookup_insert_eq by (by eapply lookup_lt_Some).
      split; [done|]. simpl. congruence.
    + exists s. by rewrite list_lookup_insert_ne.
  - destruct (get_api_client_frame c' st) as [G1 G2].
    apply (wf_prop_shrink st); [done | by rewrite G1 | done].
  - destruct (session_cleanup_frame r' st) as [G1 G2].
    apply (wf_prop_shrink st); [done | by rewrite G1 | done].
Qed.

(** Every store reached from the empty store satisfies [store_wf], the
    hypothesis of the claim about expired lookups below. *)
Lemma run_store_wf (env : Env) (ops : list Op) :
  store_wf (run env ops empty_store) = true.
Proof.
  apply wf_prop_store_wf.
  assert (H0 : wf_prop empty_store) by (intros k r Hk; simpl in Hk; by rewrite lookup_empty in Hk).
  revert H0. generalize empty_store.
  induction ops as [|op ops IH]; intros st Hst; simpl; [done|].
  by apply IH, wf_prop_step.
Qed.

(* ------------------------------------------------------------------ *)
(** ** Registry claims *)

(** Every entry left in the dict is live at the clock reading [now]. *)
Definition all_live (now : Q) (st : Store) : Prop :=
  ∀ tok r s, sessions st !! tok = Some r → sess_heap st !! r = Some s →
             is_expired s now = false.

(** One microsecond, in hours. *)
Definition microsecond : Q := 1 # 3600000000.

(** Clock readings one microsecond apart from hour 10 on. *)
Definition clock_10_us : RegisterClock :=
  mkRegisterClock 10 (10 + microsecond) (10 + 2 * microsecond).

(** C1 (counterexample): [register] with a valid kubeconfig and
    [ttl_hours = 0], or [ttl_hours = -1], raises nothing and returns a
    token. With [ttl_hours = 0] and the later clock readings a microsecond
    apart, the sweep at the end of the same call has already removed the
    new session. *)
Lemma register_nonpositive_ttl_accepted :
  (register_cluster env0 empty_store "c" "kubeconfig-a" None 0 clock_10_us "x").1
    = Ok "holmes-session-x"
  ∧ sessions (register_cluster env0 empty_store "c" "kubeconfig-a" None 0 clock_10_us "x").2
      !! "holmes-session-x" = None
  ∧ (register_cluster env0 empty_store "c" "kubeconfig-a" None (-1) (clock_at 10) "x").1
    = Ok "holmes-session-x".
Proof. split; [|split]; reflexivity. Qed.

(** C1 (amended): the TTL check of [register_cluster] is the upper bound
    only. For [ttl_hours > 168] the call raises the TTL [ValueError] and
    leaves the store as it was; for every [ttl_hours <= 168], including
    [168] itself and every [ttl_hours <= 0], the check passes and the call
    is the rest of [register_cluster]: parsing, extraction, the expiry
    (which raises [OverflowError] outside the range of [datetime]),
    insertion and the sweep. *)
Theorem register_ttl_upper_bound_only (env : Env) (st : Store) (cn kc : string)
  (ctx : option string) (ttl : Q) (clk : RegisterClock) (rnd : string) :
  ((168 < ttl)%Q →
     register_cluster env st cn kc ctx ttl clk rnd
     = (Err (ValueError "TTL cannot exceed 168 hours (7 days)"), st))
  ∧ ((ttl <= 168)%Q →
     register_cluster env st cn kc ctx ttl clk rnd
     = register_checked env st cn kc ctx ttl clk rnd).
Proof.
  unfold register_cluster. split; intros H.
  - destruct (Qle_bool ttl 168) eqn:E; [|done].
    apply Qle_bool_iff in E. exfalso. by apply (Qlt_not_le _ _ H).
  - apply Qle_bool_iff in H. by rewrite H.
Qed.

Lemma register_ttl_upper_bound_only_witness :
  (168 < 200)%Q
  ∧ register_cluster env0 empty_store "c" "kubeconfig-a" None 200 (clock_at 0) "x"
    = (Err (ValueError "TTL cannot exceed 168 hours (7 days)"), empty_store)
  ∧ (168 <= 168)%Q
  ∧ register_cluster env0 empty_store "c" "kubeconfig-a" None 168 (clock_at 0) "x"
    = register_checked env0 empty_store "c" "kubeconfig-a" None 168 (clock_at 0) "x".
Proof.
  assert (H1 : (168 < 200)%Q) by (vm_compute; reflexivity).
  assert (H2 : (168 <= 168)%Q) by (vm_compute; discriminate).
  split; [exact H1|]. split.
  - apply (proj1 (register_ttl_upper_bound_only env0 empty_store "c" "kubeconfig-a"
                    None 200 (clock_at 0) "x")). exact H1.
  - split; [exact H2|].
    apply (proj2 (register_ttl_upper_bound_only env0 empty_store "c" "kubeconfig-a"
                    None 168 (clock_at 0) "x")). exact H2.
Defined.

(** The store of the C2 counterexample: one session registered at time 0
    for one hour. *)
Definition store_one_hour : Store :=
  (register_cluster env0 empty_store "c" "kubeconfig-a" None 1 (clock_at 0) "x").2.

(** C2 (counterexample): at time 5 the session of [store_one_hour] has
    expired; [get_session] and [unregister_cluster] on another token leave
    it in the dict. *)
Lemma get_other_token_keeps_expired :
  ¬ all_live 5 (get_session "holmes-session-y" 5 store_one_hour).2
  ∧ ¬ all_live 5 (unregister_cluster "holmes-session-y" store_one_hour).2.
Proof.
  split; intros H;
    specialize (H "holmes-session-x" 0 _ eq_refl eq_refl); vm_compute in H; discriminate.
Qed.

(** C2 (amended): [register_cluster] (when it returns a token) and
    [list_sessions] sweep the whole dict, leaving no entry expired at the
    operation's clock reading (for a registration, the sweep's reading).
    [get_session] leaves no expired entry under
    the token it looks up and changes no other entry; [unregister_cluster]
    changes no entry but its own, so neither sweeps other expired
    entries. *)
Theorem registry_sweep_scope :
  (∀ now st, all_live now (list_sessions now st).2)
  ∧ (∀ env st cn kc ctx ttl clk rnd tok st',
       register_cluster env st cn kc ctx ttl clk rnd = (Ok tok, st') →
       all_live (clk_sweep clk) st')
  ∧ (∀ tok now st r s,
       sessions (get_session tok now st).2 !! tok = Some r →
       sess_heap (get_session tok now st).2 !! r = Some s →
       is_expired s now = false)
  ∧ (∀ tok now st k, k ≠ tok →
       sessions (get_session tok now st).2 !! k = sessions st !! k)
  ∧ (∀ tok st k, k ≠ tok →
       sessions (unregister_cluster tok st).2 !! k = sessions st !! k).
Proof.
  split; [|split; [|split; [|split]]].
  - intros now st. unfold all_live. apply all_live_cleanup.
  - intros env st cn kc ctx ttl clk rnd tok st' H.
    destruct (register_cases env st cn kc ctx ttl clk rnd) as [[e E]|[creds E]];
      rewrite E in H; [discriminate|].
    injection H as _ <-. unfold all_live. apply all_live_cleanup.
  - intros tok now st r s. unfold get_session.
    destruct (sessions st !! tok) as [r0|] eqn:E; [|simpl; congruence].
    destruct (sess_heap st !! r0) as [s0|] eqn:E0; simpl.
    + destruct (is_expired s0 now) eqn:X; simpl.
      * by rewrite (proj1 (unregister_frame tok st)), lookup_delete_eq.
      * rewrite E. intros [= <-]. congruence.
    + rewrite E. intros [= <-]. congruence.
  - intros tok now st k Hk. unfold get_session.
    destruct (sessions st !! tok) as [r0|]; [|done].
    destruct (sess_heap st !! r0) as [s0|]; [|done].
    destruct (is_expired s0 now); [|done]. simpl.
    rewrite (proj1 (unregister_frame tok st)). by apply lookup_delete_ne.
  - intros tok st k Hk. rewrite (proj1 (unregister_frame tok st)).
    by apply lookup_delete_ne.
Qed.

Lemma registry_sweep_scope_witness :
  all_live 5 (list_sessions 5 store_one_hour).2
  ∧ register_cluster env0 empty_store "c" "kubeconfig-a" None 1 (clock_at 0) "x"
    = (Ok "holmes-session-x", store_one_hour)
  ∧ all_live 0 store_one_hour.
Proof.
  assert (E : register_cluster env0 empty_store "c" "kubeconfig-a" None 1 (clock_at 0) "x"
              = (Ok "holmes-session-x", store_one_hour)) by reflexivity.
  destruct registry_sweep_scope as [H1 [H2 _]]. split; [|split].
  - apply H1.
  - exact E.
  - exact (H2 _ _ _ _ _ _ _ _ _ _ E).
Defined.

(** C3: [get_session] on an expired session returns [None], removes the
    token from the dict, a later [list_sessions] (at any time) has no
    record with that token, and the result is the one of a token that was
    never registered. *)
Theorem get_expired_is_not_found (st : Store) (tok : string) (r : nat)
  (s : ClusterSession) (now : Q) :
  store_wf st = true →
  sessions st !! tok = Some r →
  sess_heap st !! r = Some s →
  is_expired s now = true →
  (get_session tok now st).1 = None
  ∧ sessions (get_session tok now st).2 !! tok = None
  ∧ (∀ now' i, i ∈ (list_sessions now' (get_session tok now st).2).1 →
               si_session_token i ≠ tok)
  ∧ (∀ tok0, sessions st !! tok0 = None →
             (get_session tok0 now st).1 = (get_session tok now st).1).
Proof.
  intros Hwf Hr Hs Hx.
  assert (G : get_session tok now st = (None, (unregister_cluster tok st).2)).
  { unfold get_session. by rewrite Hr, Hs, Hx. }
  rewrite G. simpl.
  destruct (unregister_frame tok st) as [U1 U2].
  split; [done|]. split; [by rewrite U1, lookup_delete_eq|]. split.
  - intros now' i Hi. unfold list_sessions in Hi. simpl in Hi.
    destruct (cleanup_expired_frame now' (unregister_cluster tok st).2) as [C1 C2].
    apply list_elem_of_omap in Hi as [[k r'] [Hin Hd]].
    apply elem_of_map_to_list in Hin. simpl in Hd.
    rewrite C1, U2 in Hd.
    rewrite C2, U1 in Hin.
    destruct (delete tok (sessions st) !! k) as [r0|] eqn:Ek; [|discriminate].
    destruct (ref_expired _ now' r0); [discriminate|].
    injection Hin as ->.
    destruct (decide (k = tok)) as [->|Hne]; [by rewrite lookup_delete_eq in Ek|].
    rewrite lookup_delete_ne in Ek by congruence.
    destruct (store_wf_spec st Hwf k r' Ek) as [s0 [Hs0 Ht]].
    rewrite Hs0 in Hd. simpl in Hd. injection Hd as <-. simpl. congruence.
  - intros tok0 H0. unfold get_session. by rewrite H0.
Qed.

Lemma get_expired_is_not_found_witness :
  store_wf store_one_hour = true
  ∧ sessions store_one_hour !! "holmes-session-x" = Some 0
  ∧ (get_session "holmes-session-x" 5 store_one_hour).1 = None
  ∧ sessions (get_session "holmes-session-x" 5 store_one_hour).2 !! "holmes-session-x" = None.
Proof.
  assert (W : store_wf store_one_hour = true) by reflexivity.
  assert (L : sessions store_one_hour !! "holmes-session-x" = Some 0) by reflexivity.
  assert (X : is_expired (mkSession "holmes-session-x" "c"
                (mkCredentials (YStr "https://10.0.0.1:6443") (YStr "abc") "CA-PEM"
                   (YStr "default") "" "") 1 0 None) 5 = true) by reflexivity.
  destruct (get_expired_is_not_found store_one_hour "holmes-session-x" 0 _ 5 W L
              eq_refl X) as [H1 [H2 _]].
  split; [exact W|]. split; [exact L|]. split; [exact H1 | exact H2].
Defined.

(** C7: a [register_cluster] call that raises leaves the whole store,
    and so the token-to-session dict, as it was. *)
Theorem register_failure_atomic (env : Env) (st : Store) (cn kc : string)
  (ctx : option string) (ttl : Q) (clk : RegisterClock) (rnd : string) (e : PyError) :
  (register_cluster env st cn kc ctx ttl clk rnd).1 = Err e →
  (register_cluster env st cn kc ctx ttl clk rnd).2 = st.
Proof.
  destruct (register_cases env st cn kc ctx ttl clk rnd) as [[e' E]|[creds E]];
    rewrite E; [done | discriminate].
Qed.

Lemma register_failure_atomic_witness :
  (register_cluster env0 store_one_hour "c" "kubeconfig-no-server" None 24 (clock_at 3) "z").1
    = Err (KeyError "server")
  ∧ (register_cluster env0 store_one_hour "c" "kubeconfig-no-server" None 24 (clock_at 3) "z").2
    = store_one_hour.
Proof.
  assert (E : (register_cluster env0 store_one_hour "c" "kubeconfig-no-server" None 24 (clock_at 3) "z").1
              = Err (KeyError "server")) by reflexivity.
  split; [exact E|]. exact (register_failure_atomic _ _ _ _ _ _ _ _ _ E).
Defined.

(* ------------------------------------------------------------------ *)
(** ** Session claims: the memoized client handle and [cleanup] *)

Lemma dk_close_idem (c : nat) (st : Store) :
  dk_close c (dk_close c st) = dk_close c st.
Proof.
  destruct (client_heap st !! c) as [d|] eqn:E.
  - destruct (dk_api_client d) as [a|] eqn:A.
    + assert (Hd : dk_close c st
                   = mkStore (sessions st) (sess_heap st)
                       (<[c := mkDynClient (dk_credentials d)
                                 (Some (api_client_close a (releases st)).1)]>
                          (client_heap st))
                       (api_client_close a (releases st)).2).
      { unfold dk_close. rewrite E, A. by destruct (api_client_close a (releases st)). }
      assert (Hc : c < length (client_heap st)) by (by eapply lookup_lt_Some).
      rewrite Hd. unfold dk_close at 1. simpl.
      rewrite list_lookup_insert_eq by done. simpl.
      unfold api_client_close. destruct (ac_pool a) eqn:H; simpl;
        [|rewrite H]; by rewrite list_insert_insert_eq.
    + assert (Hd : dk_close c st = st) by (unfold dk_close; by rewrite E, A).
      by rewrite !Hd.
  - assert (Hd : dk_close c st = st) by (unfold dk_close; by rewrite E).
    by rewrite !Hd.
Qed.

(** C8: the first [get_k8s_client] call on a session constructs one
    [DynamicKubernetesClient] from the session's credentials, stores it in
    the memo slot and returns it; a call on a filled slot returns the
    stored handle and changes nothing; along any sequence of operations at
    most one handle is constructed for a given session. *)
Theorem get_k8s_client_memoized (env : Env) (r : nat) (st : Store) (ops : list Op) :
  (∀ s, sess_heap st !! r = Some s → k8s_client s = None →
     (get_k8s_client r st).1 = Some (length (client_heap st))
     ∧ client_heap (get_k8s_client r st).2
       = (client_heap st ++ [mkDynClient (credentials s) None])%list
     ∧ get_k8s_client r (get_k8s_client r st).2
       = ((get_k8s_client r st).1, (get_k8s_client r st).2))
  ∧ (∀ c, slot r st = Some c → get_k8s_client r st = (Some c, st))
  ∧ client_constructions env r ops st <= 1.
Proof.
  split; [|split].
  - intros s Hs Hk.
    assert (He : slot_empty r st = true) by (unfold slot_empty; by rewrite Hs, Hk).
    pose proof (get_k8s_client_fills r st He) as Hf.
    split; [|split].
    + unfold get_k8s_client. by rewrite Hs, Hk.
    + unfold get_k8s_client. by rewrite Hs, Hk.
    + rewrite (get_k8s_client_filled _ _ _ Hf).
      f_equal. unfold get_k8s_client. by rewrite Hs, Hk.
  - intros c. apply get_k8s_client_filled.
  - revert st. induction ops as [|op ops IH]; intros st; simpl; [lia|].
    destruct (constructs_client r op st) eqn:C; [|simpl; apply IH].
    destruct op; try discriminate. simpl in C.
    apply andb_true_iff in C as [Hr He]. apply Nat.eqb_eq in Hr. subst.
    simpl. rewrite (constructions_after_fill env _ _ ops _ (get_k8s_client_fills _ _ He)).
    lia.
Qed.

Lemma get_k8s_client_memoized_witness :
  sess_heap store_one_hour !! 0 = Some (mkSession "holmes-session-x" "c"
     (mkCredentials (YStr "https://10.0.0.1:6443") (YStr "abc") "CA-PEM"
        (YStr "default") "" "") 1 0 None)
  ∧ (get_k8s_client 0 store_one_hour).1 = Some 0
  ∧ client_constructions env0 0
      [OpGetK8sClient 0; OpCleanup 0; OpGetK8sClient 0; OpListSessions 0;
       OpGetK8sClient 0] store_one_hour <= 1.
Proof.
  assert (S0 : sess_heap store_one_hour !! 0 = Some (mkSession "holmes-session-x" "c"
     (mkCredentials (YStr "https://10.0.0.1:6443") (YStr "abc") "CA-PEM"
        (YStr "default") "" "") 1 0 None)) by reflexivity.
  destruct (get_k8s_client_memoized env0 0 store_one_hour
              [OpGetK8sClient 0; OpCleanup 0; OpGetK8sClient 0; OpListSessions 0;
               OpGetK8sClient 0]) as [H1 [_ H3]].
  destruct (H1 _ S0 eq_refl) as [Ha _].
  split; [exact S0|]. split; [exact Ha | exact H3].
Defined.

(** C9: [ClusterSession.cleanup()] on a session without a handle changes
    nothing and raises nothing; a second [cleanup()] has no effect beyond
    the first; one [cleanup()] releases resources at most once. *)
Theorem session_cleanup_idempotent (r : nat) (st : Store) :
  (slot r st = None → session_cleanup r st = st)
  ∧ session_cleanup r (session_cleanup r st) = session_cleanup r st
  ∧ releases (session_cleanup r st) <= S (releases st).
Proof.
  unfold slot, session_cleanup.
  destruct (sess_heap st !! r) as [s|] eqn:E; simpl;
    [|rewrite ?E; split; [done|split; [done|lia]]].
  destruct (k8s_client s) as [c|] eqn:K; [|rewrite E, K; split; [done|split; [done|lia]]].
  split; [discriminate|].
  rewrite (proj2 (dk_close_frame c st)), E, K. split; [apply dk_close_idem|].
  unfold dk_close. destruct (client_heap st !! c) as [d|]; [|simpl; lia].
  destruct (dk_api_client d) as [a|]; [|simpl; lia].
  unfold api_client_close. destruct (ac_pool a); simpl; lia.
Qed.

Lemma session_cleanup_idempotent_witness :
  slot 0 store_one_hour = None
  ∧ session_cleanup 0 store_one_hour = store_one_hour.
Proof.
  assert (N : slot 0 store_one_hour = None) by reflexivity.
  split; [exact N|]. exact (proj1 (session_cleanup_idempotent 0 store_one_hour) N).
Defined.

(** C10: once the memo slot of a session holds a handle, no sequence of
    registry or session operations (including [cleanup()]) empties it, and
    [get_k8s_client] afterwards returns that same handle without
    constructing another. *)
Theorem memo_slot_never_reset (env : Env) (r c : nat) (st : Store) :
  slot r st = Some c →
  ∀ ops, slot r (run env ops st) = Some c
         ∧ get_k8s_client r (run env ops st) = (Some c, run env ops st).
Proof.
  intros Hs ops. pose proof (run_keeps_slot env ops st r c Hs) as H.
  split; [exact H | by apply get_k8s_client_filled].
Qed.

Lemma memo_slot_never_reset_witness :
  slot 0 (get_k8s_client 0 store_one_hour).2 = Some 0
  ∧ get_k8s_client 0
      (run env0 [OpGetApiClient 0; OpCleanup 0; OpUnregister "holmes-session-x"]
         (get_k8s_client 0 store_one_hour).2)
    = (Some 0, run env0 [OpGetApiClient 0; OpCleanup 0; OpUnregister "holmes-session-x"]
                 (get_k8s_client 0 store_one_hour).2).
Proof.
  assert (H : slot 0 (get_k8s_client 0 store_one_hour).2 = Some 0) by reflexivity.
  split; [exact H|].
  exact (proj2 (memo_slot_never_reset env0 0 0 _ H
                  [OpGetApiClient 0; OpCleanup 0; OpUnregister "holmes-session-x"])).
Defined.

(* ------------------------------------------------------------------ *)
(** ** Extractor claims *)

(** The [name] of a list entry, when the entry is a mapping whose [name]
    is a string. *)
Definition entry_name (e : Yaml) : option string :=
  match e with
  | YMap fs => match assoc "name" fs with Some (YStr n) => Some n | _ => None end
  | _ => None
  end.

(** A well-formed [clusters], [users] or [contexts] list: every entry is a
    mapping with a string [name], and names are distinct. *)
Definition named_list (l : list Yaml) : Prop :=
  Forall (fun e => is_Some (entry_name e)) l ∧ NoDup (omap entry_name l).

Lemma assoc_elem (k : string) (kv : list (string * Yaml)) (v : Yaml) :
  assoc k kv = Some v → k ∈ map fst kv.
Proof.
  induction kv as [|[k' v'] kv IH]; simpl; [discriminate|].
  destruct (String.eqb_spec k k') as [->|Hne]; intros H.
  - apply elem_of_cons. by left.
  - apply elem_of_cons. right. by apply IH.
Qed.

Lemma getitem_assoc (k : string) (kv : list (string * Yaml)) (v : Yaml) :
  assoc k kv = Some v → py_getitem (YMap kv) k = Ok v.
Proof. simpl. by intros ->. Qed.

Lemma in_assoc (k : string) (kv : list (string * Yaml)) (v : Yaml) :
  assoc k kv = Some v → py_in k (YMap kv) = Ok true.
Proof. intros H. simpl. f_equal. apply bool_decide_eq_true_2. by eapply assoc_elem. Qed.

Lemma truthy_assoc (k : string) (kv : list (string * Yaml)) (v : Yaml) :
  assoc k kv = Some v → py_truthy (YMap kv) = true.
Proof. destruct kv; [discriminate | done]. Qed.

Lemma entry_name_getitem (e : Yaml) (n : string) :
  entry_name e = Some n → py_getitem e "name" = Ok (YStr n).
Proof.
  destruct e as [| | | | |fs]; simpl; try discriminate.
  destruct (assoc "name" fs) as [[]|]; simpl; congruence.
Qed.

Lemma next_named_found (l : list Yaml) (e : Yaml) (n : string) :
  named_list l → e ∈ l → entry_name e = Some n → next_named l (YStr n) = Ok (Some e).
Proof.
  induction l as [|x l IH]; intros [HF HN] He Hn; [by apply not_elem_of_nil in He|].
  apply Forall_cons in HF as [[m Hm] HF].
  cbn [next_named]. rewrite (entry_name_getitem x m Hm). cbn [rbind py_eq].
  cbn [omap list_omap] in HN. rewrite Hm in HN. apply NoDup_cons in HN as [Hnotin HN].
  destruct (String.eqb_spec m n) as [->|Hne].
  - apply elem_of_cons in He as [->|He]; [done|].
    exfalso. apply Hnotin, list_elem_of_omap. by exists e.
  - apply elem_of_cons in He as [->|He]; [congruence|].
    by apply IH.
Qed.

Lemma find_named_found (top : list (string * Yaml)) (key : string) (l : list Yaml)
  (fs : list (string * Yaml)) (n : string) :
  assoc key top = Some (YList l) → named_list l → YMap fs ∈ l →
  assoc "name" fs = Some (YStr n) →
  find_named (YMap top) key (YStr n) = Ok (Some (YMap fs)).
Proof.
  intros Hk Hl Hin Hn. unfold find_named. simpl. rewrite Hk. cbn [rbind py_iter].
  apply next_named_found; [done..|]. simpl. by rewrite Hn.
Qed.

(** C4: for every kubeconfig mapping whose [contexts], [clusters] and
    [users] lists are well formed and which contains context [ctx-a]
    (without [namespace]) on cluster [prod] (server
    [https://10.0.0.1:6443], inline CA data [d]) and user [svc] (token
    [abc]), extraction for [ctx-a] returns that server, token [abc], the
    base64-decoded CA data, namespace [default] and no client
    certificate or key. *)
Theorem extract_ctx_a (env : Env) (top cfs cc clfs ci ufs ui : list (string * Yaml))
  (ctxs cls us : list Yaml) (d ca : string) :
  assoc "contexts" top = Some (YList ctxs) →
  assoc "clusters" top = Some (YList cls) →
  assoc "users" top = Some (YList us) →
  named_list ctxs → named_list cls → named_list us →
  YMap cfs ∈ ctxs → assoc "name" cfs = Some (YStr "ctx-a") →
  assoc "context" cfs = Some (YMap cc) →
  assoc "cluster" cc = Some (YStr "prod") → assoc "user" cc = Some (YStr "svc") →
  assoc "namespace" cc = None →
  YMap clfs ∈ cls → assoc "name" clfs = Some (YStr "prod") →
  assoc "cluster" clfs = Some (YMap ci) →
  assoc "server" ci = Some (YStr "https://10.0.0.1:6443") →
  assoc "certificate-authority-data" ci = Some (YStr d) →
  b64decode_utf8 env d = Some ca →
  YMap ufs ∈ us → assoc "name" ufs = Some (YStr "svc") →
  assoc "user" ufs = Some (YMap ui) →
  assoc "token" ui = Some (YStr "abc") →
  extract_credentials env (YMap top) (Some "ctx-a")
  = Ok (mkCredentials (YStr "https://10.0.0.1:6443") (YStr "abc") ca
          (YStr "default") "" "").
Proof.
  intros Hctxs Hcls Hus Nctx Ncl Nus Icfs Ncfs Hcc Hcl Hu Hns
         Iclfs Nclfs Hci Hsrv Hca Hdec Iufs Nufs Hui Htok.
  unfold extract_credentials, resolve_entries, select_context.
  change (opt_str_truthy (Some "ctx-a")) with true.
  change (default "" (Some "ctx-a")) with "ctx-a". cbv iota.
  rewrite (find_named_found _ _ _ _ _ Hctxs Nctx Icfs Ncfs). cbn [rbind].
  rewrite (truthy_assoc _ _ _ Ncfs). cbn [rbind].
  rewrite (getitem_assoc _ _ _ Hcc). cbn [rbind].
  rewrite (getitem_assoc _ _ _ Hcl). cbn [rbind].
  rewrite (getitem_assoc _ _ _ Hu). cbn [rbind].
  cbn [py_dict_get]. rewrite Hns. cbn [rbind].
  rewrite (find_named_found _ _ _ _ _ Hcls Ncl Iclfs Nclfs). cbn [rbind].
  rewrite (truthy_assoc _ _ _ Nclfs).
  rewrite (find_named_found _ _ _ _ _ Hus Nus Iufs Nufs). cbn [rbind].
  rewrite (truthy_assoc _ _ _ Nufs). cbn [rbind].
  rewrite (getitem_assoc _ _ _ Hci). cbn [rbind].
  rewrite (getitem_assoc _ _ _ Hsrv). cbn [rbind].
  unfold extract_ca. rewrite (in_assoc _ _ _ Hca). cbn [rbind].
  rewrite (getitem_assoc _ _ _ Hca). cbn [rbind py_b64decode_utf8].
  rewrite Hdec. cbn [rbind].
  rewrite (getitem_assoc _ _ _ Hui). cbn [rbind].
  unfold extract_auth. rewrite (in_assoc _ _ _ Htok). cbn [rbind].
  rewrite (getitem_assoc _ _ _ Htok). reflexivity.
Qed.

Lemma named_singleton (e : Yaml) (n : string) :
  entry_name e = Some n → named_list [e].
Proof.
  intros H. split.
  - constructor; [by exists n | constructor].
  - cbn [omap list_omap]. rewrite H. apply NoDup_singleton.
Qed.

Lemma extract_ctx_a_witness :
  named_list [ctx_a] ∧ named_list [prod_cluster] ∧ named_list [svc_user]
  ∧ extract_credentials env0 kubeconfig_a (Some "ctx-a")
    = Ok (mkCredentials (YStr "https://10.0.0.1:6443") (YStr "abc") "CA-PEM"
            (YStr "default") "" "").
Proof.
  assert (N1 : named_list [ctx_a]) by (apply (named_singleton _ "ctx-a"); reflexivity).
  assert (N2 : named_list [prod_cluster]) by (apply (named_singleton _ "prod"); reflexivity).
  assert (N3 : named_list [svc_user]) by (apply (named_singleton _ "svc"); reflexivity).
  split; [exact N1|]. split; [exact N2|]. split; [exact N3|].
  unfold kubeconfig_a.
  refine (extract_ctx_a env0
            [("apiVersion", YStr "v1"); ("kind", YStr "Config");
             ("current-context", YStr "ctx-a");
             ("clusters", YList [prod_cluster]); ("contexts", YList [ctx_a]);
             ("users", YList [svc_user])]
            [("name", YStr "ctx-a");
             ("context", YMap [("cluster", YStr "prod"); ("user", YStr "svc")])]
            [("cluster", YStr "prod"); ("user", YStr "svc")]
            [("name", YStr "prod");
             ("cluster", YMap [("server", YStr "https://10.0.0.1:6443");
                               ("certificate-authority-data", YStr "Q0EtUEVN")])]
            [("server", YStr "https://10.0.0.1:6443");
             ("certificate-authority-data", YStr "Q0EtUEVN")]
            [("name", YStr "svc"); ("user", YMap [("token", YStr "abc")])]
            [("token", YStr "abc")]
            [ctx_a] [prod_cluster] [svc_user]
            "Q0EtUEVN" "CA-PEM" eq_refl eq_refl eq_refl N1 N2 N3
            _ eq_refl eq_refl eq_refl eq_refl eq_refl
            _ eq_refl eq_refl eq_refl eq_refl eq_refl
            _ eq_refl eq_refl eq_refl).
  - apply list_elem_of_singleton. reflexivity.
  - apply list_elem_of_singleton. reflexivity.
  - apply list_elem_of_singleton. reflexivity.
Defined.

(** C5: when the resolved user record holds a bearer [token] and also a
    client certificate/key pair (inline or file-referenced), a successful
    extraction carries that token and empty [client_cert] and
    [client_key]: the token is tested first and the pair is not read. *)
Theorem extract_token_precedence (env : Env) (kc : Yaml) (cn : option string)
  (b : KubernetesCredentials) (ns cl u t : Yaml) (ui : list (string * Yaml)) :
  extract_credentials env kc cn = Ok b →
  resolve_entries kc cn = Ok (ns, cl, u) →
  py_getitem u "user" = Ok (YMap ui) →
  assoc "token" ui = Some t →
  (is_Some (assoc "client-certificate-data" ui) ∧ is_Some (assoc "client-key-data" ui))
  ∨ (is_Some (assoc "client-certificate" ui) ∧ is_Some (assoc "client-key" ui)) →
  token b = t ∧ client_cert b = "" ∧ client_key b = "".
Proof.
  intros Hx Hr Hu Ht _.
  unfold extract_credentials in Hx. rewrite Hr in Hx. cbn [rbind] in Hx.
  destruct (py_getitem cl "cluster") as [ci|]; cbn [rbind] in Hx; [|discriminate].
  destruct (py_getitem ci "server") as [srv|]; cbn [rbind] in Hx; [|discriminate].
  destruct (extract_ca env ci) as [ca|]; cbn [rbind] in Hx; [|discriminate].
  rewrite Hu in Hx. cbn [rbind] in Hx.
  unfold extract_auth in Hx. rewrite (in_assoc _ _ _ Ht) in Hx. cbn [rbind] in Hx.
  rewrite (getitem_assoc _ _ _ Ht) in Hx. cbn [rbind] in Hx.
  injection Hx as <-. done.
Qed.

(** A user record with a token and an inline certificate/key pair. *)
Definition svc_user_both : Yaml :=
  YMap [("name", YStr "svc");
        ("user", YMap [("client-certificate-data", YStr "Q0VSVA==");
                       ("client-key-data", YStr "S0VZ");
                       ("token", YStr "abc")])].

Definition kubeconfig_both : Yaml :=
  YMap [("current-context", YStr "ctx-a");
        ("clusters", YList [prod_cluster]);
        ("contexts", YList [ctx_a]);
        ("users", YList [svc_user_both])].

Lemma extract_token_precedence_witness :
  extract_credentials env0 kubeconfig_both None
    = Ok (mkCredentials (YStr "https://10.0.0.1:6443") (YStr "abc") "CA-PEM"
            (YStr "default") "" "")
  ∧ token (mkCredentials (YStr "https://10.0.0.1:6443") (YStr "abc") "CA-PEM"
             (YStr "default") "" "") = YStr "abc".
Proof.
  assert (E : extract_credentials env0 kubeconfig_both None
              = Ok (mkCredentials (YStr "https://10.0.0.1:6443") (YStr "abc") "CA-PEM"
                      (YStr "default") "" "")) by reflexivity.
  split; [exact E|].
  refine (proj1 (extract_token_precedence env0 kubeconfig_both None _
                   (YStr "default") prod_cluster svc_user_both (YStr "abc")
                   [("client-certificate-data", YStr "Q0VSVA==");
                    ("client-key-data", YStr "S0VZ"); ("token", YStr "abc")]
                   E eq_refl eq_refl eq_refl _)).
  left. split; eexists; reflexivity.
Defined.

(** C6 (counterexample): with the cluster's [server] line missing,
    extraction raises [KeyError('server')], not a [ValueError] (the
    exception every configuration fault checked by the code raises). *)
Lemma extract_no_server_keyerror :
  extract_credentials env0 kubeconfig_no_server None = Err (KeyError "server")
  ∧ ∀ msg, extract_credentials env0 kubeconfig_no_server None ≠ Err (ValueError msg).
Proof. split; [reflexivity | intros msg; vm_compute; discriminate]. Qed.

(** C6 (amended): when the context, its cluster and its user all resolve
    and the cluster's [cluster] mapping has no [server] key, extraction
    raises [KeyError('server')]. *)
Theorem extract_missing_server_keyerror (env : Env) (kc : Yaml) (cn : option string)
  (ns cl u : Yaml) (ci : list (string * Yaml)) :
  resolve_entries kc cn = Ok (ns, cl, u) →
  py_getitem cl "cluster" = Ok (YMap ci) →
  assoc "server" ci = None →
  extract_credentials env kc cn = Err (KeyError "server").
Proof.
  intros Hr Hc Hs. unfold extract_credentials. rewrite Hr. cbn [rbind].
  rewrite Hc. cbn [rbind py_getitem]. by rewrite Hs.
Qed.

Lemma extract_missing_server_keyerror_witness :
  resolve_entries kubeconfig_no_server None
    = Ok (YStr "default",
          YMap [("name", YStr "prod");
                ("cluster", YMap [("certificate-authority-data", YStr "Q0EtUEVN")])],
          svc_user)
  ∧ extract_credentials env0 kubeconfig_no_server None = Err (KeyError "server").
Proof.
  assert (R : resolve_entries kubeconfig_no_server None
    = Ok (YStr "default",
          YMap [("name", YStr "prod");
                ("cluster", YMap [("certificate-authority-data", YStr "Q0EtUEVN")])],
          svc_user)) by reflexivity.
  split; [exact R|].
  exact (extract_missing_server_keyerror env0 kubeconfig_no_server None _ _ _
           [("certificate-authority-data", YStr "Q0EtUEVN")] R eq_refl eq_refl).
Defined.

(* ------------------------------------------------------------------ *)
(** ** Transport configuration and queries of [DynamicKubernetesClient] *)

(** The fields of the kubernetes [Configuration] that
    [_create_configuration] sets. A temporary file written by
    [NamedTemporaryFile(..., delete=False)] is represented by the text
    written to it; [cfg_api_key_bearer = Some t] is
    [{"authorization": f"Bearer {t}"}]. *)
Record Configuration : Type := mkConfiguration {
  cfg_host : Yaml;
  cfg_api_key_bearer : option Yaml;
  cfg_cert_file : option string;
  cfg_key_file : option string;
  cfg_ssl_ca_cert : option string;
  cfg_verify_ssl : bool
}.

(** [DynamicKubernetesClient._create_configuration] *)
Definition create_configuration (c : KubernetesCredentials) : Configuration :=
  let '(api_key, cert_file, key_file) :=
    if py_truthy (token c) then (Some (token c), None, None)
    else if negb (String.eqb (client_cert c) "") && negb (String.eqb (client_key c) "")
    then (None, Some (client_cert c), Some (client_key c))
    else (None, None, None) in
  if negb (String.eqb (ca_certificate c) "") then
    mkConfiguration (api_server c) api_key cert_file key_file (Some (ca_certificate c)) true
  else
    mkConfiguration (api_server c) api_key cert_file key_file None false.

(** [namespace or self.credentials.namespace], used by [list_pods],
    [get_pod_logs], [get_events], [get_pod] and [get_deployment]; the
    argument is [YNull] for Python's [None]. *)
Definition query_namespace (c : KubernetesCredentials) (ns : Yaml) : Yaml :=
  if py_truthy ns then ns else namespace c.

(** The arguments of [read_namespaced_pod_log] built by [get_pod_logs]. *)
Record PodLogRequest : Type := mkPodLogRequest {
  plr_name : string;
  plr_namespace : Yaml;
  plr_kwargs : list (string * Yaml)
}.

(** [DynamicKubernetesClient.get_pod_logs]: [container] and [tail_lines]
    are passed only when truthy. *)
Definition get_pod_logs_request (c : KubernetesCredentials) (pod_name : string)
  (ns : Yaml) (container : option string) (tail_lines : option Z) : PodLogRequest :=
  let kw_container :=
    if opt_str_truthy container then [("container", YStr (default "" container))] else [] in
  let kw_tail :=
    match tail_lines with
    | Some t => if Z.eqb t 0 then [] else [("tail_lines", YInt t)]
    | None => []
    end in
  mkPodLogRequest pod_name (query_namespace c ns) (kw_container ++ kw_tail)%list.

(* ------------------------------------------------------------------ *)
(** ** Callers: the diagnostic executor and the admin API *)

Inductive Skill : Type :=
| DiagnoseIssue
| ResourceHealth
| AnalyzeLogs
| FixRecommendations.

Definition skill_of_id (skill_id : string) : option Skill :=
  if String.eqb skill_id "kubernetes_diagnose_issue" then Some DiagnoseIssue
  else if String.eqb skill_id "kubernetes_resource_health" then Some ResourceHealth
  else if String.eqb skill_id "kubernetes_analyze_logs" then Some AnalyzeLogs
  else if String.eqb skill_id "kubernetes_fix_recommendations" then Some FixRecommendations
  else None.

(** [str.lower()] on the letters A-Z. No other character lowers to one
    of [p], [o], [d], so this decides [s.lower() == "pod"] as Python
    does. *)
Definition ascii_lower (a : Ascii.ascii) : Ascii.ascii :=
  let n := Ascii.nat_of_ascii a in
  if ((65 <=? n) && (n <=? 90))%nat then Ascii.ascii_of_nat (n + 32)%nat else a.

Fixpoint str_lower (s : string) : string :=
  match s with
  | EmptyString => EmptyString
  | String a s' => String (ascii_lower a) (str_lower s')
  end.

(** Does the skill method go through [get_api_client()]?
    [diagnose_issue], [analyze_logs] and [generate_fix_recommendations]
    start with [list_pods] or [get_events]; [check_resource_health] calls
    [list_pods] when [resource_type] (default ["pod"]) lowers to ["pod"].
    Both reach [get_core_v1_api()], hence [get_api_client()]. *)
Definition skill_calls_api (sk : Skill) (parameters : gmap string string) : bool :=
  match sk with
  | ResourceHealth =>
      String.eqb (str_lower (match parameters !! "resource_type" with
                             | Some t => t
                             | None => "pod"
                             end)) "pod"
  | _ => true
  end.

(** Outcome of [execute_diagnostic_skill]: an error dict, or the skill
    method called with the session, its client handle and the namespace
    (the dict that method returns, built from the cluster's answers, is
    not modelled). *)
Inductive ExecOutcome : Type :=
| ExecError (msg : string)
| ExecDispatch (skill : Skill) (session : nat) (client : nat) (ns : Yaml).

(** [K8sDiagnosticExecutor.execute_diagnostic_skill], lines 46-88, with
    the parameters dict parsed by [parse_skill_call] (string values). The
    store effect of a skill method is its first [get_api_client()]: the
    Kubernetes requests are synchronous and touch no modelled state, and
    every later [get_api_client()] finds the [ApiClient] built. The last
    branch is reached only with a dangling session reference. *)
Definition execute_diagnostic_skill (skill_id : string) (parameters : gmap string string)
  (now : Q) (st : Store) : ExecOutcome * Store :=
  let session_token := parameters !! "session_token" in
  if negb (opt_str_truthy session_token) then
    (ExecError "session_token parameter is required for all diagnostic skills", st)
  else
    let '(session, st1) := get_session (default "" session_token) now st in
    match session with
    | None => (ExecError "Invalid or expired session token", st1)
    | Some r =>
        let '(client, st2) := get_k8s_client r st1 in
        match client, sess_heap st2 !! r with
        | Some cl, Some s =>
            let ns := match parameters !! "namespace" with
                      | Some n => YStr n
                      | None => namespace (credentials s)
                      end in
            match skill_of_id skill_id with
            | Some sk =>
                (ExecDispatch sk r cl ns,
                 if skill_calls_api sk parameters then get_api_client cl st2 else st2)
            | None => (ExecError (String.append "Unknown diagnostic skill: " skill_id), st2)
            end
        | _, _ => (ExecError "Failed to connect to cluster", st2)
        end
    end.

(** [ClusterRegistrationResponse]; an error is its prefix and the
    exception whose [str] follows it. *)
Record RegistrationResponse : Type := mkRegistrationResponse {
  rr_success : bool;
  rr_session_token : option string;
  rr_cluster_name : option string;
  rr_api_server : option string;
  rr_namespace : option string;
  rr_connectivity_status : option string;
  rr_expires_at : option Q;
  rr_error : option (string * PyError)
}.

Definition registration_error (prefix : string) (e : PyError) : RegistrationResponse :=
  mkRegistrationResponse false None None None None None None (Some (prefix, e)).


Definition validate_str_or_none (field : string) (v : Yaml) : result (option string) :=
  match v with
  | YNull => Ok None
  | YStr s => Ok (Some s)
  | _ => Err (ValueError (String.append "validation error for ClusterRegistrationResponse: "
                            field))
  end.

(** The success response of the register endpoint, as the constructor
    call validates it; [api_server] is checked before [namespace]. *)
Definition registration_success (tok cluster_name : string) (api_server namespace : Yaml)
  (status : string) (expires_at : option Q) : result RegistrationResponse :=
  let* a := validate_str_or_none "api_server" api_server in
  let* n := validate_str_or_none "namespace" namespace in
  Ok (mkRegistrationResponse true (Some tok) (Some cluster_name) a n (Some status)
        expires_at None).

(** [POST /clusters/register] of [create_admin_app]. [clk] holds the clock
    readings of [register_cluster], [now'] the one of the following
    [get_session]. [get_api_client()] builds the [ApiClient] as everywhere
    in the model; [probe_ok] says whether reading [.api_version] on it then
    completes without raising. A [ValueError] raised anywhere in the [try]
    block, the response's validation included, gets the "Configuration
    error: " prefix, any other exception "Registration failed: ". *)
Definition admin_register (env : Env) (st : Store) (cluster_name kubeconfig : string)
  (context : option string) (ttl_hours : Q) (clk : RegisterClock) (now' : Q) (rnd : string)
  (probe_ok : bool) : RegistrationResponse * Store :=
  let answer (resp : result RegistrationResponse) (st' : Store) :=
    match resp with
    | Ok rr => (rr, st')
    | Err (ValueError m) => (registration_error "Configuration error: " (ValueError m), st')
    | Err e => (registration_error "Registration failed: " e, st')
    end in
  match register_cluster env st cluster_name kubeconfig context ttl_hours clk rnd with
  | (Err e, st1) => answer (Err e) st1
  | (Ok tok, st1) =>
      let '(session, st2) := get_session tok now' st1 in
      match session with
      | Some r =>
          let '(client, st3) := get_k8s_client r st2 in
          let st4 := match client with Some cl => get_api_client cl st3 | None => st3 end in
          let status := if probe_ok then "connected" else "warning" in
          match sess_heap st4 !! r with
          | Some s =>
              answer (registration_success tok cluster_name (api_server (credentials s))
                        (namespace (credentials s)) status (Some (expires_at s))) st4
          | None =>
              answer (registration_success tok cluster_name (YStr "unknown") (YStr "default")
                        status None) st4
          end
      | None =>
          answer (registration_success tok cluster_name (YStr "unknown") (YStr "default")
                    "error" None) st2
      end
  end.

(** The body of [DELETE /clusters/{session_token}]. *)
Record UnregisterResponse : Type := mkUnregisterResponse {
  ur_cluster_name : string;
  ur_unregistered : bool;
  ur_message : string
}.

Definition unregister_message (b : bool) : string :=
  if b then "Session removed successfully" else "Session not found or already expired".

(** [DELETE /clusters/{session_token}]: [get_session] first, then
    [unregister_cluster] only for a session it returned. *)
Definition admin_unregister (tok : string) (now : Q) (st : Store) : UnregisterResponse * Store :=
  let '(session, st1) := get_session tok now st in
  match session with
  | Some r =>
      let cn := match sess_heap st1 !! r with Some s => cluster_name s | None => "unknown" end in
      let '(b, st2) := unregister_cluster tok st1 in
      (mkUnregisterResponse cn b (unregister_message b), st2)
  | None => (mkUnregisterResponse "unknown" false (unregister_message false), st1)
  end.

(** [verify_admin_token]: [admin_key] is [os.getenv("A2A_API_KEY")];
    [None] as result is the 401 [HTTPException]. *)
Definition verify_admin_token (admin_key : option string) (presented : string) : option string :=
  if negb (opt_str_truthy admin_key) || negb (String.eqb presented (default "" admin_key))
  then None else Some presented.

(* ------------------------------------------------------------------ *)
(** ** Further properties of the session registry *)

(** The credentials extracted from [kubeconfig_a]. *)
Definition credentials_of_a : KubernetesCredentials :=
  mkCredentials (YStr "https://10.0.0.1:6443") (YStr "abc") "CA-PEM" (YStr "default") "" "".

Lemma Qle_bool_le (a b : Q) : (a <= b)%Q → Qle_bool a b = true.
Proof. apply Qle_bool_iff. Qed.

Lemma Qle_bool_lt (a b : Q) : (b < a)%Q → Qle_bool a b = false.
Proof.
  intros H. destruct (Qle_bool a b) eqn:E; [|done].
  apply Qle_bool_iff in E. lra.
Qed.

Lemma register_ok_store (env : Env) (st : Store) (cn kc : string) (ctx : option string)
  (ttl : Q) (clk : RegisterClock) (rnd : string) (kcy : Yaml) (creds : KubernetesCredentials) :
  (ttl <= 168)%Q → datetime_in_range (clk_expiry clk + ttl) = true →
  yaml_safe_load env kc = Some kcy → extract_credentials env kcy ctx = Ok creds →
  register_cluster env st cn kc ctx ttl clk rnd
  = (Ok (generate_session_token rnd),
     cleanup_expired_sessions (clk_sweep clk)
       (register_inserted st cn creds (clk_expiry clk + ttl) (clk_created clk) rnd)).
Proof.
  intros Ht Hd Hy Hx. unfold register_cluster, register_checked, add_hours.
  apply Qle_bool_iff in Ht. by rewrite Ht, Hy, Hx, Hd.
Qed.

Lemma register_inserted_new (st : Store) cn creds expires created rnd :
  sess_heap (register_inserted st cn creds expires created rnd) !! length (sess_heap st)
  = Some (mkSession (generate_session_token rnd) cn creds expires created None).
Proof. simpl. rewrite lookup_app_r, Nat.sub_diag by lia. done. Qed.

(** The entry of the new token after a successful registration, live or
    swept according to the sweep's clock reading. *)
Lemma register_ok_entry (env : Env) (st : Store) (cn kc : string) (ctx : option string)
  (ttl : Q) (clk : RegisterClock) (rnd : string) (kcy : Yaml) (creds : KubernetesCredentials) :
  (ttl <= 168)%Q → datetime_in_range (clk_expiry clk + ttl) = true →
  yaml_safe_load env kc = Some kcy → extract_credentials env kcy ctx = Ok creds →
  sessions (register_cluster env st cn kc ctx ttl clk rnd).2 !! generate_session_token rnd
  = (if Qle_bool (clk_sweep clk) (clk_expiry clk + ttl) then Some (length (sess_heap st))
     else None)
  ∧ sess_heap (register_cluster env st cn kc ctx ttl clk rnd).2 !! length (sess_heap st)
    = Some (mkSession (generate_session_token rnd) cn creds (clk_expiry clk + ttl)
              (clk_created clk) None).
Proof.
  intros Ht Hd Hy Hx.
  rewrite (register_ok_store env st cn kc ctx ttl clk rnd kcy creds Ht Hd Hy Hx).
  set (st1 := register_inserted st cn creds (clk_expiry clk + ttl) (clk_created clk) rnd).
  destruct (cleanup_expired_frame (clk_sweep clk) st1) as [H1 H2].
  simpl snd. rewrite H1, H2. unfold st1. rewrite register_inserted_new. split; [|done].
  cbn [register_inserted sessions]. rewrite lookup_insert_eq.
  unfold ref_expired. rewrite register_inserted_new. unfold is_expired. simpl.
  by destruct (Qle_bool (clk_sweep clk) (clk_expiry clk + ttl)).
Qed.

(** X1: a registration that passes the TTL check and extraction, whose
    expiry [clk_expiry + ttl_hours] is a valid [datetime] not earlier than
    the sweep's clock reading, returns ["holmes-session-" + rnd] and maps
    it to a new session object holding the cluster name, the extracted
    credentials, that expiry, the second clock reading as [created_at] and
    an empty client slot. The previous value under that token, if any, is
    replaced: no uniqueness check is made. *)
Theorem register_inserts_session (env : Env) (st : Store) (cn kc : string)
  (ctx : option string) (ttl : Q) (clk : RegisterClock) (rnd : string) (kcy : Yaml)
  (creds : KubernetesCredentials)
  (Hmax : (ttl <= 168)%Q) (Hrange : datetime_in_range (clk_expiry clk + ttl) = true)
  (Hlive : (clk_sweep clk <= clk_expiry clk + ttl)%Q)
  (Hy : yaml_safe_load env kc = Some kcy) (Hx : extract_credentials env kcy ctx = Ok creds) :
  (register_cluster env st cn kc ctx ttl clk rnd).1
    = Ok (String.append "holmes-session-" rnd)
  ∧ sessions (register_cluster env st cn kc ctx ttl clk rnd).2
      !! String.append "holmes-session-" rnd = Some (length (sess_heap st))
  ∧ sess_heap (register_cluster env st cn kc ctx ttl clk rnd).2 !! length (sess_heap st)
    = Some (mkSession (String.append "holmes-session-" rnd) cn creds (clk_expiry clk + ttl)
              (clk_created clk) None).
Proof.
  destruct (register_ok_entry env st cn kc ctx ttl clk rnd kcy creds Hmax Hrange Hy Hx)
    as [E1 E2].
  rewrite Qle_bool_le in E1 by exact Hlive.
  split; [|split; [exact E1 | exact E2]].
  by rewrite (register_ok_store env st cn kc ctx ttl clk rnd kcy creds Hmax Hrange Hy Hx).
Qed.

(** A store where ["holmes-session-x"] is already registered (to
    session 0), used to show that re-registration replaces it. *)
Definition store_x_registered : Store :=
  (register_cluster env0 empty_store "old" "kubeconfig-a" None 24 (clock_at 0) "x").2.

Lemma register_inserts_session_witness :
  sessions store_x_registered !! "holmes-session-x" = Some 0
  ∧ (register_cluster env0 store_x_registered "c" "kubeconfig-a" None 1 clock_10_us "x").1
      = Ok (String.append "holmes-session-" "x")
  ∧ sessions (register_cluster env0 store_x_registered "c" "kubeconfig-a" None 1 clock_10_us
                "x").2
      !! String.append "holmes-session-" "x" = Some (length (sess_heap store_x_registered))
  ∧ sess_heap (register_cluster env0 store_x_registered "c" "kubeconfig-a" None 1 clock_10_us
                 "x").2
      !! length (sess_heap store_x_registered)
    = Some (mkSession (String.append "holmes-session-" "x") "c" credentials_of_a
              (clk_expiry clock_10_us + 1) (clk_created clock_10_us) None).
Proof.
  split; [reflexivity|].
  apply (register_inserts_session env0 store_x_registered "c" "kubeconfig-a" None 1
           clock_10_us "x" kubeconfig_a); [vm_compute; discriminate | reflexivity
                                          | vm_compute; discriminate
                                          | reflexivity | reflexivity].
Defined.

(** X2: a registration that passes the TTL check and extraction, whose
    expiry is a valid [datetime] already past at the sweep's clock reading
    (any [ttl_hours < 0] when the sweep reads the clock no earlier than
    the expiry line, or [ttl_hours = 0] with a later sweep reading), still
    returns its token, but the sweep at the end of [register_cluster] has
    removed the session: the token is not in the dict afterwards. *)
Theorem register_negative_ttl_discarded (env : Env) (st : Store) (cn kc : string)
  (ctx : option string) (ttl : Q) (clk : RegisterClock) (rnd : string) (kcy : Yaml)
  (creds : KubernetesCredentials)
  (Hmax : (ttl <= 168)%Q) (Hrange : datetime_in_range (clk_expiry clk + ttl) = true)
  (Hpast : (clk_expiry clk + ttl < clk_sweep clk)%Q)
  (Hy : yaml_safe_load env kc = Some kcy) (Hx : extract_credentials env kcy ctx = Ok creds) :
  (register_cluster env st cn kc ctx ttl clk rnd).1 = Ok (generate_session_token rnd)
  ∧ sessions (register_cluster env st cn kc ctx ttl clk rnd).2 !! generate_session_token rnd
    = None.
Proof.
  destruct (register_ok_entry env st cn kc ctx ttl clk rnd kcy creds Hmax Hrange Hy Hx)
    as [E1 _].
  rewrite Qle_bool_lt in E1 by exact Hpast.
  split; [|exact E1].
  by rewrite (register_ok_store env st cn kc ctx ttl clk rnd kcy creds Hmax Hrange Hy Hx).
Qed.

Lemma register_negative_ttl_discarded_witness :
  (register_cluster env0 empty_store "c" "kubeconfig-a" None (-1) (clock_at 10) "x").1
    = Ok (generate_session_token "x")
  ∧ sessions (register_cluster env0 empty_store "c" "kubeconfig-a" None (-1) (clock_at 10)
                "x").2 !! generate_session_token "x" = None
  ∧ sessions (register_cluster env0 empty_store "c" "kubeconfig-a" None 0 clock_10_us
                "x").2 !! generate_session_token "x" = None.
Proof.
  split; [|split].
  - apply (register_negative_ttl_discarded env0 empty_store "c" "kubeconfig-a" None (-1)
             (clock_at 10) "x" kubeconfig_a credentials_of_a);
      [vm_compute; discriminate | reflexivity | vm_compute; reflexivity
      | reflexivity | reflexivity].
  - apply (register_negative_ttl_discarded env0 empty_store "c" "kubeconfig-a" None (-1)
             (clock_at 10) "x" kubeconfig_a credentials_of_a);
      [vm_compute; discriminate | reflexivity | vm_compute; reflexivity
      | reflexivity | reflexivity].
  - apply (register_negative_ttl_discarded env0 empty_store "c" "kubeconfig-a" None 0
             clock_10_us "x" kubeconfig_a credentials_of_a);
      [vm_compute; discriminate | reflexivity | vm_compute; reflexivity
      | reflexivity | reflexivity].
Defined.

(** X3: after a successful registration whose expiry [clk_expiry +
    ttl_hours] is a valid [datetime] not earlier than the sweep's clock
    reading, a [get_session] of its token at time [t] returns the new
    session exactly when [t] is not past that expiry; past it, it returns
    [None] and the entry is gone from the dict. *)
Theorem registered_session_lifetime (env : Env) (st : Store) (cn kc : string)
  (ctx : option string) (ttl : Q) (clk : RegisterClock) (t : Q) (rnd : string) (kcy : Yaml)
  (creds : KubernetesCredentials)
  (Hmax : (ttl <= 168)%Q) (Hrange : datetime_in_range (clk_expiry clk + ttl) = true)
  (Hlive : (clk_sweep clk <= clk_expiry clk + ttl)%Q)
  (Hy : yaml_safe_load env kc = Some kcy) (Hx : extract_credentials env kcy ctx = Ok creds) :
  (get_session (generate_session_token rnd) t
     (register_cluster env st cn kc ctx ttl clk rnd).2).1
    = (if Qle_bool t (clk_expiry clk + ttl) then Some (length (sess_heap st)) else None)
  ∧ sessions (get_session (generate_session_token rnd) t
                (register_cluster env st cn kc ctx ttl clk rnd).2).2
      !! generate_session_token rnd
    = (if Qle_bool t (clk_expiry clk + ttl) then Some (length (sess_heap st)) else None).
Proof.
  destruct (register_ok_entry env st cn kc ctx ttl clk rnd kcy creds Hmax Hrange Hy Hx)
    as [E1 E2].
  rewrite Qle_bool_le in E1 by exact Hlive.
  unfold get_session. rewrite E1, E2. unfold is_expired. simpl expires_at.
  destruct (Qle_bool t (clk_expiry clk + ttl)); simpl; split; [done | by rewrite E1 | done |].
  rewrite (proj1 (unregister_frame _ _)). apply lookup_delete_eq.
Qed.

Lemma registered_session_lifetime_witness :
  (get_session (generate_session_token "x") (1/2)
     (register_cluster env0 empty_store "c" "kubeconfig-a" None 1 (clock_at 0) "x").2).1 = Some 0
  ∧ (get_session (generate_session_token "x") 2
       (register_cluster env0 empty_store "c" "kubeconfig-a" None 1 (clock_at 0) "x").2).1 = None
  ∧ sessions (get_session (generate_session_token "x") 2
                (register_cluster env0 empty_store "c" "kubeconfig-a" None 1 (clock_at 0)
                   "x").2).2
      !! generate_session_token "x" = None.
Proof.
  assert (H1 : (1 <= 168)%Q) by (vm_compute; discriminate).
  assert (H2 : (clk_sweep (clock_at 0) <= clk_expiry (clock_at 0) + 1)%Q)
    by (vm_compute; discriminate).
  pose proof (registered_session_lifetime env0 empty_store "c" "kubeconfig-a" None 1
                (clock_at 0) (1/2) "x" kubeconfig_a _ H1 eq_refl H2 eq_refl eq_refl) as [A _].
  pose proof (registered_session_lifetime env0 empty_store "c" "kubeconfig-a" None 1
                (clock_at 0) 2 "x" kubeconfig_a _ H1 eq_refl H2 eq_refl eq_refl) as [B C].
  split; [exact A|]. split; [exact B | exact C].
Defined.

(** X4: [unregister_cluster] returns [True] exactly when the token is in
    the dict, whether or not its session has expired; afterwards the token
    is absent, so a second call returns [False]. *)
Theorem unregister_cluster_presence (tok : string) (st : Store) :
  (unregister_cluster tok st).1
    = match sessions st !! tok with Some _ => true | None => false end
  ∧ sessions (unregister_cluster tok st).2 !! tok = None
  ∧ (unregister_cluster tok (unregister_cluster tok st).2).1 = false.
Proof.
  assert (Hd : sessions (unregister_cluster tok st).2 !! tok = None).
  { rewrite (proj1 (unregister_frame tok st)). apply lookup_delete_eq. }
  split; [|split; [exact Hd|]].
  - unfold unregister_cluster. by destruct (sessions st !! tok).
  - unfold unregister_cluster at 1. by rewrite Hd.
Qed.

(** X5: the records of [list_sessions now] are exactly the [to_dict] of the
    sessions that the dict held under some token and that are not expired
    at [now]. *)
Theorem list_sessions_records (now : Q) (st : Store) (i : SessionInfo) :
  i ∈ (list_sessions now st).1
  ↔ ∃ tok r s, sessions st !! tok = Some r ∧ sess_heap st !! r = Some s
               ∧ is_expired s now = false ∧ i = to_dict s now.
Proof.
  destruct (cleanup_expired_frame now st) as [H1 H2].
  unfold list_sessions. simpl fst. rewrite list_elem_of_omap. split.
  - intros [[tok r] [Hm Hf]]. apply elem_of_map_to_list in Hm. simpl in Hf.
    rewrite H2 in Hm. rewrite H1 in Hf.
    destruct (sessions st !! tok) as [r0|] eqn:E; [|discriminate].
    unfold ref_expired in Hm.
    destruct (sess_heap st !! r0) as [s|] eqn:S.
    + destruct (is_expired s now) eqn:X; [discriminate|].
      injection Hm as ->. rewrite S in Hf. injection Hf as <-.
      exists tok, r, s. done.
    + injection Hm as ->. by rewrite S in Hf.
  - intros (tok & r & s & E & S & X & ->). exists (tok, r). split.
    + apply elem_of_map_to_list. rewrite H2, E. unfold ref_expired. by rewrite S, X.
    + simpl. by rewrite H1, S.
Qed.

(* ------------------------------------------------------------------ *)
(** ** Properties of [DynamicKubernetesClient] *)

(** Closing a handle whose [ApiClient] has no pool changes nothing. *)
Lemma dk_close_no_pool (c : nat) (st : Store) (d : DynamicKubernetesClient) (a : ApiClient) :
  client_heap st !! c = Some d → dk_api_client d = Some a → ac_pool a = false →
  dk_close c st = st.
Proof.
  intros Hd Ha Hp. unfold dk_close. rewrite Hd, Ha. unfold api_client_close. rewrite Hp.
  destruct d as [cr ac]. simpl in Ha. subst ac. simpl.
  rewrite list_insert_id by done. by destruct st.
Qed.

(** X6: on a handle whose [ApiClient] has not been built, [close()] does
    nothing; [get_api_client()] builds one, without a thread pool, and
    returns that same one on later calls; [close()] on it then finds no
    pool and changes nothing either. *)
Theorem api_client_lifecycle (c : nat) (st : Store) (d : DynamicKubernetesClient)
  (Hd : client_heap st !! c = Some d) (Hn : dk_api_client d = None) :
  dk_close c st = st
  ∧ client_heap (get_api_client c st) !! c
    = Some (mkDynClient (dk_credentials d) (Some (mkApiClient false)))
  ∧ get_api_client c (get_api_client c st) = get_api_client c st
  ∧ dk_close c (get_api_client c st) = get_api_client c st.
Proof.
  assert (Hc : c < length (client_heap st)) by (by eapply lookup_lt_Some).
  assert (Hg : client_heap (get_api_client c st) !! c
               = Some (mkDynClient (dk_credentials d) (Some (mkApiClient false)))).
  { unfold get_api_client. rewrite Hd, Hn. simpl. by rewrite list_lookup_insert_eq. }
  split; [unfold dk_close; by rewrite Hd, Hn|].
  split; [exact Hg|]. split.
  - unfold get_api_client at 1. by rewrite Hg.
  - by apply (dk_close_no_pool _ _ _ (mkApiClient false) Hg).
Qed.

Definition store_one_client : Store :=
  (get_k8s_client 0 store_one_hour).2.

Lemma api_client_lifecycle_witness :
  client_heap store_one_client !! 0 = Some (mkDynClient (credentials_of_a) None)
  ∧ dk_close 0 store_one_client = store_one_client
  ∧ get_api_client 0 (get_api_client 0 store_one_client) = get_api_client 0 store_one_client
  ∧ dk_close 0 (get_api_client 0 store_one_client) = get_api_client 0 store_one_client.
Proof.
  assert (H : client_heap store_one_client !! 0 = Some (mkDynClient (credentials_of_a) None))
    by reflexivity.
  destruct (api_client_lifecycle 0 store_one_client _ H eq_refl) as (A & _ & B & C).
  split; [exact H|]. split; [exact A|]. split; [exact B | exact C].
Defined.

Lemma list_sessions_records_witness :
  to_dict (mkSession "holmes-session-x" "c" credentials_of_a (0 + 1) 0 None) 0
    ∈ (list_sessions 0 store_one_hour).1.
Proof.
  apply (proj2 (list_sessions_records 0 store_one_hour _)).
  exists "holmes-session-x", 0, (mkSession "holmes-session-x" "c" credentials_of_a (0 + 1) 0 None).
  split; [reflexivity|]. split; [reflexivity|]. split; reflexivity.
Defined.

(** Where each field of extracted credentials comes from. *)
Lemma extract_credentials_parts (env : Env) (kc : Yaml) (cn : option string)
  (creds : KubernetesCredentials) :
  extract_credentials env kc cn = Ok creds →
  ∃ ns cl u ci ui,
    resolve_entries kc cn = Ok (ns, cl, u) ∧ py_getitem cl "cluster" = Ok ci
    ∧ py_getitem ci "server" = Ok (api_server creds)
    ∧ extract_ca env ci = Ok (ca_certificate creds)
    ∧ py_getitem u "user" = Ok ui
    ∧ extract_auth env ui = Ok (token creds, client_cert creds, client_key creds)
    ∧ namespace creds = ns.
Proof.
  unfold extract_credentials.
  destruct (resolve_entries kc cn) as [[[ns cl] u]|e] eqn:E1; cbn [rbind]; [|discriminate].
  destruct (py_getitem cl "cluster") as [ci|e] eqn:E2; cbn [rbind]; [|discriminate].
  destruct (py_getitem ci "server") as [srv|e] eqn:E3; cbn [rbind]; [|discriminate].
  destruct (extract_ca env ci) as [ca|e] eqn:E4; cbn [rbind]; [|discriminate].
  destruct (py_getitem u "user") as [ui|e] eqn:E5; cbn [rbind]; [|discriminate].
  destruct (extract_auth env ui) as [[[t cc] ck]|e] eqn:E6; cbn [rbind]; [|discriminate].
  intros [= <-]. exists ns, cl, u, ci, ui. by repeat split.
Qed.

Lemma assoc_none_in (k : string) (kv : list (string * Yaml)) :
  assoc k kv = None → py_in k (YMap kv) = Ok false.
Proof.
  intros H. simpl. f_equal. apply bool_decide_eq_false_2.
  induction kv as [|[k' v'] kv IH]; simpl in *; [apply not_elem_of_nil|].
  destruct (String.eqb_spec k k') as [->|Hne]; [discriminate|].
  rewrite elem_of_cons. intros [->|Hin]; [done | by apply IH].
Qed.

(** X7: when the extracted bearer token is truthy, the configuration
    authenticates with ["Bearer " + token] only: no client certificate or
    key file is written, even if the credentials also carry them. *)
Theorem configuration_token_precedence (c : KubernetesCredentials)
  (Ht : py_truthy (token c) = true) :
  cfg_api_key_bearer (create_configuration c) = Some (token c)
  ∧ cfg_cert_file (create_configuration c) = None
  ∧ cfg_key_file (create_configuration c) = None.
Proof.
  unfold create_configuration. rewrite Ht.
  by destruct (negb (String.eqb (ca_certificate c) "")).
Qed.

Lemma configuration_token_precedence_witness :
  py_truthy (YStr "abc") = true
  ∧ cfg_api_key_bearer (create_configuration
       (mkCredentials (YStr "https://k") (YStr "abc") "" (YStr "default") "CERT" "KEY"))
    = Some (YStr "abc")
  ∧ cfg_cert_file (create_configuration
       (mkCredentials (YStr "https://k") (YStr "abc") "" (YStr "default") "CERT" "KEY")) = None
  ∧ cfg_key_file (create_configuration
       (mkCredentials (YStr "https://k") (YStr "abc") "" (YStr "default") "CERT" "KEY")) = None.
Proof.
  split; [reflexivity|].
  exact (configuration_token_precedence
           (mkCredentials (YStr "https://k") (YStr "abc") "" (YStr "default") "CERT" "KEY")
           eq_refl).
Defined.

(** X8: if the cluster entry the kubeconfig selects has neither
    [certificate-authority-data] nor [certificate-authority], extraction
    yields an empty CA and the configuration built from those credentials
    has no CA file and TLS verification turned off. *)
Theorem no_ca_disables_tls (env : Env) (kc : Yaml) (cn : option string)
  (creds : KubernetesCredentials) (ns cl u : Yaml) (kv : list (string * Yaml))
  (Hx : extract_credentials env kc cn = Ok creds)
  (Hr : resolve_entries kc cn = Ok (ns, cl, u))
  (Hc : py_getitem cl "cluster" = Ok (YMap kv))
  (Hd : assoc "certificate-authority-data" kv = None)
  (Hf : assoc "certificate-authority" kv = None) :
  ca_certificate creds = ""
  ∧ cfg_ssl_ca_cert (create_configuration creds) = None
  ∧ cfg_verify_ssl (create_configuration creds) = false.
Proof.
  destruct (extract_credentials_parts env kc cn creds Hx)
    as (ns' & cl' & u' & ci & ui & Hr' & Hc' & _ & Hca & _).
  rewrite Hr in Hr'. injection Hr' as <- <- <-. rewrite Hc in Hc'. injection Hc' as <-.
  unfold extract_ca in Hca. rewrite (assoc_none_in _ _ Hd) in Hca. cbn [rbind] in Hca.
  rewrite (assoc_none_in _ _ Hf) in Hca. cbn [rbind] in Hca. injection Hca as Hca.
  assert (He : ca_certificate creds = "") by done.
  split; [exact He|]. unfold create_configuration. rewrite He. simpl.
  by repeat case_match.
Qed.

(** [kubeconfig_a] with the cluster's CA line left out. *)
Definition kubeconfig_no_ca : Yaml :=
  YMap [("current-context", YStr "ctx-a");
        ("clusters", YList [YMap [("name", YStr "prod");
                                  ("cluster", YMap [("server",
                                                     YStr "https://10.0.0.1:6443")])]]);
        ("contexts", YList [ctx_a]);
        ("users", YList [svc_user])].

Lemma no_ca_disables_tls_witness :
  extract_credentials env0 kubeconfig_no_ca None
    = Ok (mkCredentials (YStr "https://10.0.0.1:6443") (YStr "abc") "" (YStr "default") "" "")
  ∧ cfg_verify_ssl (create_configuration
       (mkCredentials (YStr "https://10.0.0.1:6443") (YStr "abc") "" (YStr "default") "" ""))
    = false.
Proof.
  assert (Hx : extract_credentials env0 kubeconfig_no_ca None
               = Ok (mkCredentials (YStr "https://10.0.0.1:6443") (YStr "abc") ""
                       (YStr "default") "" "")) by reflexivity.
  split; [exact Hx|].
  refine (proj2 (proj2 (no_ca_disables_tls env0 kubeconfig_no_ca None _ (YStr "default")
    (List.hd YNull [YMap [("name", YStr "prod");
                          ("cluster", YMap [("server", YStr "https://10.0.0.1:6443")])]])
    svc_user [("server", YStr "https://10.0.0.1:6443")] Hx _ _ _ _))); reflexivity.
Defined.

(** X9: if the user entry the kubeconfig selects has a [token] key whose
    value is falsy (empty string, null, ...), extraction still succeeds
    through the token branch, with empty client certificate and key, and
    the configuration built from the credentials carries no
    authentication at all, even if the entry also has client certificate
    data. *)
Theorem falsy_token_unauthenticated (env : Env) (kc : Yaml) (cn : option string)
  (creds : KubernetesCredentials) (ns cl u t : Yaml) (kv : list (string * Yaml))
  (Hx : extract_credentials env kc cn = Ok creds)
  (Hr : resolve_entries kc cn = Ok (ns, cl, u))
  (Hu : py_getitem u "user" = Ok (YMap kv))
  (Ht : assoc "token" kv = Some t) (Hf : py_truthy t = false) :
  token creds = t ∧ client_cert creds = "" ∧ client_key creds = ""
  ∧ cfg_api_key_bearer (create_configuration creds) = None
  ∧ cfg_cert_file (create_configuration creds) = None
  ∧ cfg_key_file (create_configuration creds) = None.
Proof.
  destruct (extract_credentials_parts env kc cn creds Hx)
    as (ns' & cl' & u' & ci & ui & Hr' & _ & _ & _ & Hu' & Ha & _).
  rewrite Hr in Hr'. injection Hr' as <- <- <-. rewrite Hu in Hu'. injection Hu' as <-.
  unfold extract_auth in Ha. rewrite (in_assoc _ _ _ Ht) in Ha. cbn [rbind] in Ha.
  rewrite (getitem_assoc _ _ _ Ht) in Ha. cbn [rbind] in Ha.
  injection Ha as Ht' Hc Hk.
  split; [done|]. split; [done|]. split; [done|].
  unfold create_configuration. rewrite <- Ht', Hf, <- Hc, <- Hk. simpl.
  by repeat case_match.
Qed.

(** A service-account user with an empty token next to client
    certificate data. *)
Definition svc_user_empty_token : Yaml :=
  YMap [("name", YStr "svc");
        ("user", YMap [("token", YStr ""); ("client-certificate-data", YStr "Q0EtUEVN");
                       ("client-key-data", YStr "Q0EtUEVN")])].

Definition kubeconfig_empty_token : Yaml :=
  YMap [("current-context", YStr "ctx-a");
        ("clusters", YList [prod_cluster]);
        ("contexts", YList [ctx_a]);
        ("users", YList [svc_user_empty_token])].

Lemma falsy_token_unauthenticated_witness :
  extract_credentials env0 kubeconfig_empty_token None
    = Ok (mkCredentials (YStr "https://10.0.0.1:6443") (YStr "") "CA-PEM" (YStr "default") "" "")
  ∧ cfg_api_key_bearer (create_configuration
       (mkCredentials (YStr "https://10.0.0.1:6443") (YStr "") "CA-PEM" (YStr "default") "" ""))
    = None
  ∧ cfg_cert_file (create_configuration
       (mkCredentials (YStr "https://10.0.0.1:6443") (YStr "") "CA-PEM" (YStr "default") "" ""))
    = None.
Proof.
  assert (Hx : extract_credentials env0 kubeconfig_empty_token None
               = Ok (mkCredentials (YStr "https://10.0.0.1:6443") (YStr "") "CA-PEM"
                       (YStr "default") "" "")) by reflexivity.
  destruct (falsy_token_unauthenticated env0 kubeconfig_empty_token None _ (YStr "default")
              prod_cluster svc_user_empty_token (YStr "")
              [("token", YStr ""); ("client-certificate-data", YStr "Q0EtUEVN");
               ("client-key-data", YStr "Q0EtUEVN")]
              Hx eq_refl eq_refl eq_refl eq_refl) as (_ & _ & _ & A & B & _).
  split; [exact Hx|]. split; [exact A | exact B].
Defined.

(** X10: [get_pod_logs] treats falsy optional arguments as absent:
    [tail_lines=0] requests the whole log like [None], [container=""]
    the default container like [None], and an empty or [None] namespace
    falls back to the credentials' namespace. *)
Theorem pod_logs_falsy_arguments (c : KubernetesCredentials) (pod : string) (ns : Yaml)
  (container : option string) (tail : option Z) :
  get_pod_logs_request c pod ns container (Some 0%Z)
    = get_pod_logs_request c pod ns container None
  ∧ get_pod_logs_request c pod ns (Some "") tail = get_pod_logs_request c pod ns None tail
  ∧ get_pod_logs_request c pod (YStr "") container tail
    = get_pod_logs_request c pod YNull container tail
  ∧ plr_namespace (get_pod_logs_request c pod YNull container tail) = namespace c.
Proof. repeat split. Qed.

(* ------------------------------------------------------------------ *)
(** ** Properties of [execute_diagnostic_skill] *)

Lemma dk_close_client_len (c : nat) (st : Store) :
  length (client_heap (dk_close c st)) = length (client_heap st).
Proof.
  unfold dk_close. destruct (client_heap st !! c) as [d|]; [|done].
  destruct (dk_api_client d) as [a|]; [|done].
  destruct (api_client_close a (releases st)). simpl. apply length_insert.
Qed.

Lemma unregister_client_len (tok : string) (st : Store) :
  length (client_heap (unregister_cluster tok st).2) = length (client_heap st).
Proof.
  unfold unregister_cluster. destruct (sessions st !! tok) as [r|]; [|done]. simpl.
  unfold session_cleanup. simpl. destruct (sess_heap st !! r) as [s|]; [|done].
  destruct (k8s_client s) as [c|]; [|done].
  by rewrite dk_close_client_len.
Qed.

(** X11: a request whose [session_token] parameter is missing or empty,
    unknown, or names an expired session is answered with an error before
    any client handle is built: the first case with the "required"
    message and no change, the other two with the same "Invalid or
    expired" message, the token's entry being absent afterwards and every
    other entry unchanged. *)
Theorem execute_rejects_without_live_session (skill : string)
  (params : gmap string string) (now : Q) (st : Store)
  (H : match params !! "session_token" with
       | Some tok =>
           tok = "" ∨ sessions st !! tok = None
           ∨ ∃ r s, sessions st !! tok = Some r ∧ sess_heap st !! r = Some s
                    ∧ is_expired s now = true
       | None => True
       end) :
  (execute_diagnostic_skill skill params now st).1
    = (if opt_str_truthy (params !! "session_token")
       then ExecError "Invalid or expired session token"
       else ExecError "session_token parameter is required for all diagnostic skills")
  ∧ sess_heap (execute_diagnostic_skill skill params now st).2 = sess_heap st
  ∧ length (client_heap (execute_diagnostic_skill skill params now st).2)
    = length (client_heap st)
  ∧ (∀ k, params !! "session_token" ≠ Some k →
       sessions (execute_diagnostic_skill skill params now st).2 !! k = sessions st !! k)
  ∧ (∀ tok, params !! "session_token" = Some tok → tok ≠ "" →
       sessions (execute_diagnostic_skill skill params now st).2 !! tok = None).
Proof.
  unfold execute_diagnostic_skill.
  destruct (params !! "session_token") as [tok|] eqn:P; simpl.
  2: { repeat split; done. }
  destruct (String.eqb_spec tok "") as [->|Hne]; simpl.
  { repeat split; try done. intros tok [= <-] Hc. done. }
  destruct H as [H|[H|(r & s & Hr & Hs & Hx)]]; [done| |].
  - unfold get_session. rewrite H. simpl.
    repeat split; try done. intros tok' [= <-] _. done.
  - unfold get_session. rewrite Hr, Hs, Hx. simpl.
    destruct (unregister_frame tok st) as [U1 U2].
    split; [done|]. split; [exact U2|]. split; [apply unregister_client_len|]. split.
    + intros k Hk. rewrite U1. apply lookup_delete_ne. congruence.
    + intros tok' [= <-] _. rewrite U1. apply lookup_delete_eq.
Qed.

(** The parameters of a call naming the token ["holmes-session-x"]. *)
Definition params_x : gmap string string := <["session_token" := "holmes-session-x"]> ∅.

Lemma execute_rejects_without_live_session_witness :
  (execute_diagnostic_skill "kubernetes_analyze_logs"
     params_x 5 store_one_hour).1
    = ExecError "Invalid or expired session token"
  ∧ sessions (execute_diagnostic_skill "kubernetes_analyze_logs"
                params_x 5 store_one_hour).2
      !! "holmes-session-x" = None.
Proof.
  assert (H : match params_x
                      !! "session_token" with
              | Some tok =>
                  tok = "" ∨ sessions store_one_hour !! tok = None
                  ∨ ∃ r s, sessions store_one_hour !! tok = Some r
                           ∧ sess_heap store_one_hour !! r = Some s ∧ is_expired s 5 = true
              | None => True
              end).
  { vm_compute. right. right. eexists 0, _. split; [reflexivity|]. split; reflexivity. }
  destruct (execute_rejects_without_live_session "kubernetes_analyze_logs"
              params_x 5 store_one_hour H)
    as (A & _ & _ & _ & B).
  split; [exact A|]. apply B; [reflexivity | discriminate].
Defined.

(** The handle [get_k8s_client] returns for session object [s]: the memo
    slot's, or the next free reference. *)
Definition client_ref (s : ClusterSession) (st : Store) : nat :=
  match k8s_client s with Some c => c | None => length (client_heap st) end.

Lemma get_k8s_client_spec (r : nat) (s : ClusterSession) (st : Store) :
  sess_heap st !! r = Some s →
  (get_k8s_client r st).1 = Some (client_ref s st)
  ∧ sessions (get_k8s_client r st).2 = sessions st
  ∧ ∃ s', sess_heap (get_k8s_client r st).2 !! r = Some s'
          ∧ credentials s' = credentials s ∧ expires_at s' = expires_at s
          ∧ k8s_client s' = Some (client_ref s st).
Proof.
  intros Hs. unfold get_k8s_client, client_ref. rewrite Hs.
  destruct (k8s_client s) as [c|] eqn:K.
  - split; [done|]. split; [done|]. exists s. by rewrite K.
  - split; [done|]. split; [done|]. exists (set_k8s_client s (length (client_heap st))).
    simpl. rewrite list_lookup_insert_eq by (by eapply lookup_lt_Some). done.
Qed.

(** The store effect of the skill method: [get_api_client()] on handle
    [c] when the skill is known and its method reaches the API. *)
Definition skill_store (skill : string) (params : gmap string string) (c : nat)
  (st : Store) : Store :=
  match skill_of_id skill with
  | Some sk => if skill_calls_api sk params then get_api_client c st else st
  | None => st
  end.

Lemma get_api_client_idem (c : nat) (st : Store) :
  get_api_client c (get_api_client c st) = get_api_client c st.
Proof.
  destruct (client_heap st !! c) as [d|] eqn:E.
  - destruct (dk_api_client d) as [a|] eqn:A.
    + assert (G : get_api_client c st = st) by (unfold get_api_client; by rewrite E, A).
      by rewrite !G.
    + assert (G : client_heap (get_api_client c st) !! c
                  = Some (mkDynClient (dk_credentials d) (Some (mkApiClient false)))).
      { unfold get_api_client. rewrite E, A. simpl.
        rewrite list_lookup_insert_eq by (by eapply lookup_lt_Some). done. }
      set (st' := get_api_client c st) in *. unfold get_api_client. by rewrite G.
  - assert (G : get_api_client c st = st) by (unfold get_api_client; by rewrite E).
    by rewrite !G.
Qed.

Lemma skill_store_idem (skill : string) (params : gmap string string) (c : nat) (st : Store) :
  skill_store skill params c (get_api_client c st) = get_api_client c st.
Proof.
  unfold skill_store. destruct (skill_of_id skill); [|done].
  destruct (skill_calls_api _ _); [apply get_api_client_idem | done].
Qed.

Lemma skill_store_frame (skill : string) (params : gmap string string) (c : nat) (st : Store) :
  sessions (skill_store skill params c st) = sessions st
  ∧ sess_heap (skill_store skill params c st) = sess_heap st.
Proof.
  unfold skill_store. destruct (skill_of_id skill); [|done].
  destruct (skill_calls_api _ _); [apply get_api_client_frame | done].
Qed.

Lemma execute_live_unfold (skill : string) (params : gmap string string) (now : Q)
  (st : Store) (tok : string) (r : nat) (s : ClusterSession) :
  params !! "session_token" = Some tok → tok ≠ "" → sessions st !! tok = Some r →
  sess_heap st !! r = Some s → is_expired s now = false →
  execute_diagnostic_skill skill params now st
  = (match skill_of_id skill with
     | Some sk => ExecDispatch sk r (client_ref s st)
                    (match params !! "namespace" with
                     | Some n => YStr n
                     | None => namespace (credentials s)
                     end)
     | None => ExecError (String.append "Unknown diagnostic skill: " skill)
     end, skill_store skill params (client_ref s st) (get_k8s_client r st).2).
Proof.
  intros P Hne Hr Hs Hl. unfold execute_diagnostic_skill, skill_store. rewrite P.
  assert (T : opt_str_truthy (Some tok) = true)
    by (simpl; by rewrite (proj2 (String.eqb_neq _ _) Hne)).
  rewrite T. cbn [negb default]. unfold id.
  assert (G : get_session tok now st = (Some r, st))
    by (unfold get_session; by rewrite Hr, Hs, Hl).
  rewrite G. cbn beta iota.
  destruct (get_k8s_client_spec r s st Hs) as (K1 & _ & s' & S1 & S2 & _).
  destruct (get_k8s_client r st) as [oc st2]. simpl in K1, S1. subst oc.
  rewrite S1, S2. by destruct (skill_of_id skill).
Qed.

(** X12: for a request whose [session_token] names a session that is not
    expired, [execute_diagnostic_skill] dispatches a known skill with that
    session, its client handle and the [namespace] parameter (the
    session's namespace when the parameter is absent); an unknown skill id
    gets the "Unknown diagnostic skill" error, but only after the handle
    has been built. The handle is stored in the session's slot; the store
    is the one [get_k8s_client] leaves, followed by the handle's
    [get_api_client()] when the skill method reaches the API. After such a
    request, later requests with the same token, while the session lives,
    change nothing in the store. *)
Theorem execute_live_session (skill : string) (params : gmap string string) (now : Q)
  (st : Store) (tok : string) (r : nat) (s : ClusterSession)
  (Hp : params !! "session_token" = Some tok) (Hne : tok ≠ "")
  (Hr : sessions st !! tok = Some r) (Hs : sess_heap st !! r = Some s)
  (Hl : is_expired s now = false) :
  (execute_diagnostic_skill skill params now st).1
    = match skill_of_id skill with
      | Some sk => ExecDispatch sk r (client_ref s st)
                     (match params !! "namespace" with
                      | Some n => YStr n
                      | None => namespace (credentials s)
                      end)
      | None => ExecError (String.append "Unknown diagnostic skill: " skill)
      end
  ∧ sessions (execute_diagnostic_skill skill params now st).2 = sessions st
  ∧ slot r (execute_diagnostic_skill skill params now st).2 = Some (client_ref s st)
  ∧ (execute_diagnostic_skill skill params now st).2
    = match skill_of_id skill with
      | Some sk => if skill_calls_api sk params
                   then get_api_client (client_ref s st) (get_k8s_client r st).2
                   else (get_k8s_client r st).2
      | None => (get_k8s_client r st).2
      end
  ∧ ((∃ sk, skill_of_id skill = Some sk ∧ skill_calls_api sk params = true) →
     ∀ skill' params' now', params' !! "session_token" = Some tok →
      is_expired s now' = false →
      (execute_diagnostic_skill skill' params' now'
         (execute_diagnostic_skill skill params now st).2).2
      = (execute_diagnostic_skill skill params now st).2).
Proof.
  rewrite (execute_live_unfold skill params now st tok r s Hp Hne Hr Hs Hl). simpl.
  destruct (get_k8s_client_spec r s st Hs) as (_ & K2 & s' & S1 & _ & S3 & S4).
  destruct (skill_store_frame skill params (client_ref s st) (get_k8s_client r st).2)
    as [F1 F2].
  assert (Hslot : slot r (skill_store skill params (client_ref s st) (get_k8s_client r st).2)
                  = Some (client_ref s st))
    by (unfold slot; by rewrite F2, S1).
  split; [done|]. split; [by rewrite F1|]. split; [exact Hslot|].
  split; [unfold skill_store; by destruct (skill_of_id skill)|].
  intros (sk & Hsk & Hapi) skill' params' now' Hp' Hl'.
  assert (Hl2 : is_expired s' now' = false) by (unfold is_expired in *; by rewrite S3).
  assert (E : skill_store skill params (client_ref s st) (get_k8s_client r st).2
              = get_api_client (client_ref s st) (get_k8s_client r st).2)
    by (unfold skill_store; by rewrite Hsk, Hapi).
  rewrite E in Hslot |- *. rewrite E in F1, F2.
  rewrite (execute_live_unfold skill' params' now' _ tok r s' Hp' Hne
             ltac:(by rewrite F1, K2) ltac:(by rewrite F2) Hl2). simpl.
  rewrite (get_k8s_client_filled r (client_ref s st) _ Hslot). simpl.
  unfold client_ref at 1. rewrite S4. apply skill_store_idem.
Qed.

(** The parameters of a [kubernetes_analyze_logs] call with an explicit
    namespace. *)
Definition params_x_ns : gmap string string :=
  <["namespace" := "web"]> (<["session_token" := "holmes-session-x"]> ∅).

Lemma execute_live_session_witness :
  (execute_diagnostic_skill "kubernetes_analyze_logs" params_x_ns 0 store_one_hour).1
    = ExecDispatch AnalyzeLogs 0 0 (YStr "web")
  ∧ (execute_diagnostic_skill "kubernetes_analyze_logs" params_x_ns (1/2)
       (execute_diagnostic_skill "kubernetes_analyze_logs" params_x_ns 0 store_one_hour).2).2
    = (execute_diagnostic_skill "kubernetes_analyze_logs" params_x_ns 0 store_one_hour).2
  ∧ client_heap (execute_diagnostic_skill "kubernetes_analyze_logs" params_x_ns 0
                   store_one_hour).2 !! 0
    = Some (mkDynClient credentials_of_a (Some (mkApiClient false))).
Proof.
  destruct (execute_live_session "kubernetes_analyze_logs" params_x_ns 0 store_one_hour
              "holmes-session-x" 0 _ eq_refl ltac:(discriminate) eq_refl eq_refl eq_refl)
    as (A & _ & _ & C & B).
  split; [exact A|]. split.
  - apply B; [eexists; split; reflexivity | reflexivity | reflexivity].
  - rewrite C. reflexivity.
Defined.

(** Every filled memo slot points to a handle built from its session's
    credentials. *)
Definition handles_match (st : Store) : Prop :=
  ∀ r s c, sess_heap st !! r = Some s → k8s_client s = Some c →
    ∃ d, client_heap st !! c = Some d ∧ dk_credentials d = credentials s.

(** [st'] has the same session objects as [st] and keeps the credentials
    of every handle. *)
Definition heaps_kept (st st' : Store) : Prop :=
  sess_heap st' = sess_heap st
  ∧ ∀ c d, client_heap st !! c = Some d →
      ∃ d', client_heap st' !! c = Some d' ∧ dk_credentials d' = dk_credentials d.

Lemma heaps_kept_refl (st : Store) : heaps_kept st st.
Proof. split; [done|]. intros c d H. by exists d. Qed.

Lemma heaps_kept_trans (st1 st2 st3 : Store) :
  heaps_kept st1 st2 → heaps_kept st2 st3 → heaps_kept st1 st3.
Proof.
  intros [A1 B1] [A2 B2]. split; [congruence|].
  intros c d H. destruct (B1 c d H) as (d2 & H2 & E2).
  destruct (B2 c d2 H2) as (d3 & H3 & E3). exists d3. split; [done | congruence].
Qed.

Lemma handles_match_kept (st st' : Store) :
  heaps_kept st st' → handles_match st → handles_match st'.
Proof.
  intros [A B] H r s c Hs Hc. rewrite A in Hs.
  destruct (H r s c Hs Hc) as (d & Hd & E).
  destruct (B c d Hd) as (d' & Hd' & E'). exists d'. split; [done | congruence].
Qed.

Lemma heaps_kept_insert (st st' : Store) (c : nat) (d d' : DynamicKubernetesClient) :
  sess_heap st' = sess_heap st → client_heap st !! c = Some d →
  client_heap st' = <[c := d']> (client_heap st) → dk_credentials d' = dk_credentials d →
  heaps_kept st st'.
Proof.
  intros A Hd B E. split; [done|]. intros c' d0 H0. rewrite B.
  destruct (decide (c' = c)) as [->|Hne].
  - exists d'. rewrite list_lookup_insert_eq by (by eapply lookup_lt_Some). split; [done | congruence].
  - exists d0. by rewrite list_lookup_insert_ne.
Qed.

Lemma heaps_kept_dk_close (c : nat) (st : Store) : heaps_kept st (dk_close c st).
Proof.
  unfold dk_close. destruct (client_heap st !! c) as [d|] eqn:E; [|apply heaps_kept_refl].
  destruct (dk_api_client d) as [a|]; [|apply heaps_kept_refl].
  destruct (api_client_close a (releases st)) as [a' n].
  by eapply (heaps_kept_insert _ _ c d).
Qed.

Lemma heaps_kept_session_cleanup (r : nat) (st : Store) : heaps_kept st (session_cleanup r st).
Proof.
  unfold session_cleanup. destruct (sess_heap st !! r) as [s|]; [|apply heaps_kept_refl].
  destruct (k8s_client s); [apply heaps_kept_dk_close | apply heaps_kept_refl].
Qed.

Lemma heaps_kept_unregister (tok : string) (st : Store) :
  heaps_kept st (unregister_cluster tok st).2.
Proof.
  unfold unregister_cluster. destruct (sessions st !! tok) as [r|]; [|apply heaps_kept_refl].
  apply (heaps_kept_trans _ (set_sessions st (delete tok (sessions st)))).
  - split; [done|]. intros c' d H. by exists d.
  - apply heaps_kept_session_cleanup.
Qed.

Lemma heaps_kept_cleanup (now : Q) (st : Store) :
  heaps_kept st (cleanup_expired_sessions now st).
Proof.
  unfold cleanup_expired_sessions. generalize (map fst (filter (fun p => ref_expired st now p.2 = true)
    (map_to_list (sessions st)))).
  intros ts. revert st. induction ts as [|t ts IH]; intros st; simpl; [apply heaps_kept_refl|].
  eapply heaps_kept_trans; [apply heaps_kept_unregister | apply IH].
Qed.

Lemma heaps_kept_get_session (tok : string) (now : Q) (st : Store) :
  heaps_kept st (get_session tok now st).2.
Proof.
  unfold get_session. destruct (sessions st !! tok) as [r|]; [|apply heaps_kept_refl].
  destruct (sess_heap st !! r) as [s|]; [|apply heaps_kept_refl].
  destruct (is_expired s now); [apply heaps_kept_unregister | apply heaps_kept_refl].
Qed.

Lemma heaps_kept_get_api_client (c : nat) (st : Store) : heaps_kept st (get_api_client c st).
Proof.
  unfold get_api_client. destruct (client_heap st !! c) as [d|] eqn:E; [|apply heaps_kept_refl].
  destruct (dk_api_client d); [apply heaps_kept_refl|].
  by eapply (heaps_kept_insert _ _ c d).
Qed.

Lemma heaps_kept_skill_store (skill : string) (params : gmap string string) (c : nat)
  (st : Store) : heaps_kept st (skill_store skill params c st).
Proof.
  unfold skill_store. destruct (skill_of_id skill); [|apply heaps_kept_refl].
  destruct (skill_calls_api _ _); [apply heaps_kept_get_api_client | apply heaps_kept_refl].
Qed.

Lemma handles_match_get_k8s_client (r : nat) (st : Store) :
  handles_match st → handles_match (get_k8s_client r st).2.
Proof.
  intros H. unfold get_k8s_client. destruct (sess_heap st !! r) as [s0|] eqn:E; [|done].
  destruct (k8s_client s0) as [c0|] eqn:K; [done|]. simpl.
  assert (Hr : r < length (sess_heap st)) by (by eapply lookup_lt_Some).
  intros r' s c Hs Hc. cbn [sess_heap client_heap] in *.
  destruct (decide (r' = r)) as [->|Hne].
  - rewrite list_lookup_insert_eq in Hs by done. injection Hs as <-. simpl in Hc.
    injection Hc as <-. exists (mkDynClient (credentials s0) None).
    rewrite lookup_app_r, Nat.sub_diag by lia. done.
  - rewrite list_lookup_insert_ne in Hs by done.
    destruct (H r' s c Hs Hc) as (d & Hd & Ed). exists d.
    split; [by apply lookup_app_l_Some | done].
Qed.

Lemma handles_match_register_inserted (st : Store) cn creds expires created rnd :
  handles_match st → handles_match (register_inserted st cn creds expires created rnd).
Proof.
  intros H r s c Hs Hc. simpl in Hs.
  destruct (decide (r < length (sess_heap st))) as [Hl|Hl].
  - rewrite lookup_app_l in Hs by done. exact (H r s c Hs Hc).
  - rewrite lookup_app_r in Hs by lia.
    destruct (r - length (sess_heap st)) as [|k]; simpl in Hs.
    + injection Hs as <-. discriminate.
    + by rewrite lookup_nil in Hs.
Qed.

Lemma handles_match_step (env : Env) (op : Op) (st : Store) :
  handles_match st → handles_match (step env op st).
Proof.
  intros H.
  destruct op as [cn kc ctx ttl clk rnd|tok now|tok|now|r'|c'|r']; simpl.
  - destruct (register_cases env st cn kc ctx ttl clk rnd) as [[e E]|[creds E]];
      rewrite E; [done|]. simpl.
    eapply handles_match_kept; [apply heaps_kept_cleanup|].
    by apply handles_match_register_inserted.
  - eapply handles_match_kept; [apply heaps_kept_get_session | done].
  - eapply handles_match_kept; [apply heaps_kept_unregister | done].
  - eapply handles_match_kept; [apply heaps_kept_cleanup | done].
  - by apply handles_match_get_k8s_client.
  - eapply handles_match_kept; [apply heaps_kept_get_api_client | done].
  - eapply handles_match_kept; [apply heaps_kept_session_cleanup | done].
Qed.

Lemma run_handles_match (env : Env) (ops : list Op) :
  handles_match (run env ops empty_store).
Proof.
  assert (H0 : handles_match empty_store)
    by (intros r s c Hs; simpl in Hs; by rewrite lookup_nil in Hs).
  revert H0. generalize empty_store.
  induction ops as [|op ops IH]; intros st Hst; simpl; [done|].
  by apply IH, handles_match_step.
Qed.

Lemma execute_dispatch_inv (skill : string) (params : gmap string string) (now : Q)
  (st : Store) (sk : Skill) (r c : nat) (ns : Yaml) :
  (execute_diagnostic_skill skill params now st).1 = ExecDispatch sk r c ns →
  ∃ tok s, params !! "session_token" = Some tok ∧ tok ≠ ""
           ∧ sessions st !! tok = Some r ∧ sess_heap st !! r = Some s
           ∧ is_expired s now = false.
Proof.
  unfold execute_diagnostic_skill.
  destruct (params !! "session_token") as [tok|] eqn:P; [|discriminate].
  cbn [opt_str_truthy]. destruct (String.eqb_spec tok "") as [->|Hne]; [discriminate|].
  cbn [negb default]. unfold id, get_session.
  destruct (sessions st !! tok) as [r0|] eqn:R; [|discriminate].
  destruct (sess_heap st !! r0) as [s0|] eqn:S.
  - destruct (is_expired s0 now) eqn:X; [discriminate|]. cbn beta iota.
    destruct (get_k8s_client r0 st) as [[cl|] st2]; [|discriminate].
    destruct (sess_heap st2 !! r0); [|discriminate].
    destruct (skill_of_id skill); [|discriminate].
    intros [= _ <- _ _]. by exists tok, s0.
  - cbn beta iota. unfold get_k8s_client. rewrite S. discriminate.
Qed.

(** X13: in every store a program can reach, when [execute_diagnostic_skill]
    dispatches a skill, the session it passes is the one its
    [session_token] names, live at the call, and the client handle it
    passes was built from that session's credentials. The namespace the
    client's queries then use is the [namespace] parameter when it is
    non-empty, and the session's namespace otherwise. *)
Theorem execute_client_matches_session (env : Env) (ops : list Op) (skill : string)
  (params : gmap string string) (now : Q) (sk : Skill) (r c : nat) (ns : Yaml)
  (Hout : (execute_diagnostic_skill skill params now (run env ops empty_store)).1
          = ExecDispatch sk r c ns) :
  ∃ tok s d,
    params !! "session_token" = Some tok
    ∧ sessions (execute_diagnostic_skill skill params now (run env ops empty_store)).2
        !! tok = Some r
    ∧ sess_heap (execute_diagnostic_skill skill params now (run env ops empty_store)).2
        !! r = Some s
    ∧ is_expired s now = false
    ∧ client_heap (execute_diagnostic_skill skill params now (run env ops empty_store)).2
        !! c = Some d
    ∧ dk_credentials d = credentials s
    ∧ query_namespace (dk_credentials d) ns
      = match params !! "namespace" with
        | Some n => if String.eqb n "" then namespace (credentials s) else YStr n
        | None => namespace (credentials s)
        end.
Proof.
  pose proof (run_handles_match env ops) as Hm. revert Hout Hm.
  generalize (run env ops empty_store). intros st Hout Hm.
  destruct (execute_dispatch_inv skill params now st sk r c ns Hout)
    as (tok & s0 & P & Hne & R & S & X).
  rewrite (execute_live_unfold skill params now st tok r s0 P Hne R S X) in Hout |- *.
  simpl in Hout. simpl.
  destruct (skill_of_id skill); [|discriminate]. injection Hout as _ <- <-.
  destruct (get_k8s_client_spec r s0 st S) as (_ & K2 & s' & S1 & S2 & S3 & S4).
  destruct (handles_match_get_k8s_client r st Hm r s' (client_ref s0 st) S1 S4)
    as (d0 & Hd0 & Ed0).
  set (st2 := (get_k8s_client r st).2) in *.
  destruct (heaps_kept_skill_store skill params (client_ref s0 st) st2) as [F2 F3].
  destruct (F3 _ _ Hd0) as (d & Hd & Ed).
  destruct (skill_store_frame skill params (client_ref s0 st) st2) as [F1 _].
  exists tok, s', d. split; [done|]. split; [by rewrite F1, K2|].
  split; [by rewrite F2|].
  split; [unfold is_expired in *; by rewrite S3|]. split; [done|]. split; [congruence|].
  rewrite Ed, Ed0, S2. unfold query_namespace.
  destruct (params !! "namespace") as [n|]; simpl.
  - by destruct (String.eqb n "").
  - by destruct (py_truthy (namespace (credentials s0))).
Qed.

(** Register ["kubeconfig-a"] at time 0 for one hour. *)
Definition ops_register_x : list Op := [OpRegister "c" "kubeconfig-a" None 1 (clock_at 0) "x"].

Definition params_x_empty_ns : gmap string string :=
  <["namespace" := ""]> (<["session_token" := "holmes-session-x"]> ∅).

Lemma execute_client_matches_session_witness :
  (execute_diagnostic_skill "kubernetes_resource_health" params_x_empty_ns 0
     (run env0 ops_register_x empty_store)).1
    = ExecDispatch ResourceHealth 0 0 (YStr "")
  ∧ ∃ tok s d,
      params_x_empty_ns !! "session_token" = Some tok
      ∧ client_heap (execute_diagnostic_skill "kubernetes_resource_health" params_x_empty_ns 0
                       (run env0 ops_register_x empty_store)).2 !! 0 = Some d
      ∧ query_namespace (dk_credentials d) (YStr "") = namespace (credentials s).
Proof.
  assert (H : (execute_diagnostic_skill "kubernetes_resource_health" params_x_empty_ns 0
                 (run env0 ops_register_x empty_store)).1
              = ExecDispatch ResourceHealth 0 0 (YStr "")) by reflexivity.
  split; [exact H|].
  destruct (execute_client_matches_session env0 ops_register_x "kubernetes_resource_health"
              params_x_empty_ns 0 ResourceHealth 0 0 (YStr "") H)
    as (tok & s & d & A & _ & _ & _ & B & _ & C).
  exists tok, s, d. split; [exact A|]. split; [exact B|]. rewrite C. reflexivity.
Defined.

(* ------------------------------------------------------------------ *)
(** ** Properties of the admin API *)

Lemma register_err_store (env : Env) (st : Store) (cn kc : string) (ctx : option string)
  (ttl : Q) (clk : RegisterClock) (rnd : string) (e : PyError) :
  (register_cluster env st cn kc ctx ttl clk rnd).1 = Err e →
  register_cluster env st cn kc ctx ttl clk rnd = (Err e, st).
Proof.
  destruct (register_cases env st cn kc ctx ttl clk rnd) as [[e' E]|[creds E]];
    rewrite E; [by intros [= <-] | discriminate].
Qed.

(** X14: when [register_cluster] raises, the register endpoint answers
    [success=False] with the error prefixed by "Configuration error: " for
    a [ValueError] and by "Registration failed: " for any other exception
    (a [KeyError] for a missing field, an [OverflowError] for an expiry
    outside the range of [datetime], for instance), and the store is
    unchanged. *)
Theorem admin_register_error_mapping (env : Env) (st : Store) (cn kc : string)
  (ctx : option string) (ttl : Q) (clk : RegisterClock) (now' : Q) (rnd : string)
  (probe : bool) (e : PyError)
  (H : (register_cluster env st cn kc ctx ttl clk rnd).1 = Err e) :
  admin_register env st cn kc ctx ttl clk now' rnd probe
  = (registration_error
       (match e with
        | ValueError _ => "Configuration error: "
        | _ => "Registration failed: "
        end) e, st).
Proof.
  unfold admin_register. rewrite (register_err_store env st cn kc ctx ttl clk rnd e H).
  by destruct e.
Qed.

Lemma admin_register_error_mapping_witness :
  admin_register env0 empty_store "c" "kubeconfig-no-server" None 24 (clock_at 0) 0 "x" true
    = (registration_error "Registration failed: " (KeyError "server"), empty_store)
  ∧ admin_register env0 empty_store "c" "kubeconfig-a" None 200 (clock_at 0) 0 "x" true
    = (registration_error "Configuration error: "
         (ValueError "TTL cannot exceed 168 hours (7 days)"), empty_store)
  ∧ admin_register env0 empty_store "c" "kubeconfig-a" None (-1) (clock_at 0) 0 "x" true
    = (registration_error "Registration failed: " OverflowError, empty_store).
Proof.
  split; [|split].
  - exact (admin_register_error_mapping env0 empty_store "c" "kubeconfig-no-server" None
             24 (clock_at 0) 0 "x" true (KeyError "server") eq_refl).
  - exact (admin_register_error_mapping env0 empty_store "c" "kubeconfig-a" None
             200 (clock_at 0) 0 "x" true (ValueError "TTL cannot exceed 168 hours (7 days)")
             eq_refl).
  - exact (admin_register_error_mapping env0 empty_store "c" "kubeconfig-a" None
             (-1) (clock_at 0) 0 "x" true OverflowError eq_refl).
Defined.

(** X15: a registration that passes extraction but whose expiry, a valid
    [datetime], is already past at the sweep's clock reading (a negative
    [ttl_hours], for instance) is answered with [success=True] and a
    session token, but with connectivity status "error", api server
    "unknown" and namespace "default", and that token names no
    session. *)
Theorem admin_register_negative_ttl (env : Env) (st : Store) (cn kc : string)
  (ctx : option string) (ttl : Q) (clk : RegisterClock) (now' : Q) (rnd : string)
  (probe : bool) (kcy : Yaml) (creds : KubernetesCredentials)
  (Hmax : (ttl <= 168)%Q) (Hrange : datetime_in_range (clk_expiry clk + ttl) = true)
  (Hpast : (clk_expiry clk + ttl < clk_sweep clk)%Q)
  (Hy : yaml_safe_load env kc = Some kcy) (Hx : extract_credentials env kcy ctx = Ok creds) :
  (admin_register env st cn kc ctx ttl clk now' rnd probe).1
    = mkRegistrationResponse true (Some (generate_session_token rnd)) (Some cn)
        (Some "unknown") (Some "default") (Some "error") None None
  ∧ sessions (admin_register env st cn kc ctx ttl clk now' rnd probe).2
      !! generate_session_token rnd = None.
Proof.
  destruct (register_ok_entry env st cn kc ctx ttl clk rnd kcy creds Hmax Hrange Hy Hx)
    as [E1 _].
  rewrite Qle_bool_lt in E1 by exact Hpast.
  rewrite (register_ok_store env st cn kc ctx ttl clk rnd kcy creds Hmax Hrange Hy Hx) in E1.
  cbn [snd] in E1.
  unfold admin_register.
  rewrite (register_ok_store env st cn kc ctx ttl clk rnd kcy creds Hmax Hrange Hy Hx).
  set (st1 := cleanup_expired_sessions (clk_sweep clk)
                (register_inserted st cn creds (clk_expiry clk + ttl) (clk_created clk) rnd))
    in *.
  assert (G : get_session (generate_session_token rnd) now' st1 = (None, st1))
    by (unfold get_session; by rewrite E1).
  cbn beta iota. rewrite G. cbn beta iota. done.
Qed.

Lemma admin_register_negative_ttl_witness :
  (admin_register env0 empty_store "c" "kubeconfig-a" None (-1) (clock_at 10) 10 "x" true).1
    = mkRegistrationResponse true (Some (generate_session_token "x")) (Some "c")
        (Some "unknown") (Some "default") (Some "error") None None.
Proof.
  assert (H1 : (-1 <= 168)%Q) by (vm_compute; discriminate).
  assert (H2 : (clk_expiry (clock_at 10) + -1 < clk_sweep (clock_at 10))%Q)
    by (vm_compute; reflexivity).
  exact (proj1 (admin_register_negative_ttl env0 empty_store "c" "kubeconfig-a" None (-1)
                  (clock_at 10) 10 "x" true kubeconfig_a _ H1 eq_refl H2 eq_refl eq_refl)).
Defined.

(** The register endpoint after a registration whose session is live at
    the endpoint's [get_session]: the answer is the validated success
    response, and the probe has left the session in the dict with a
    handle built from its credentials and an [ApiClient]. *)
Lemma admin_register_live (env : Env) (st : Store) (cn kc : string)
  (ctx : option string) (ttl : Q) (clk : RegisterClock) (now' : Q) (rnd : string)
  (probe : bool) (kcy : Yaml) (creds : KubernetesCredentials) :
  (ttl <= 168)%Q → datetime_in_range (clk_expiry clk + ttl) = true →
  (clk_sweep clk <= clk_expiry clk + ttl)%Q →
  yaml_safe_load env kc = Some kcy → extract_credentials env kcy ctx = Ok creds →
  (now' <= clk_expiry clk + ttl)%Q →
  (admin_register env st cn kc ctx ttl clk now' rnd probe).1
    = match registration_success (generate_session_token rnd) cn (api_server creds)
              (namespace creds) (if probe then "connected" else "warning")
              (Some (clk_expiry clk + ttl)%Q) with
      | Ok rr => rr
      | Err (ValueError m) => registration_error "Configuration error: " (ValueError m)
      | Err e => registration_error "Registration failed: " e
      end
  ∧ sessions (admin_register env st cn kc ctx ttl clk now' rnd probe).2
      !! generate_session_token rnd = Some (length (sess_heap st))
  ∧ ∃ c d, slot (length (sess_heap st)) (admin_register env st cn kc ctx ttl clk now' rnd probe).2
             = Some c
           ∧ client_heap (admin_register env st cn kc ctx ttl clk now' rnd probe).2 !! c
             = Some d
           ∧ dk_credentials d = creds ∧ dk_api_client d = Some (mkApiClient false).
Proof.
  intros Hmax Hrange Hlive Hy Hx Hnow.
  destruct (register_ok_entry env st cn kc ctx ttl clk rnd kcy creds Hmax Hrange Hy Hx)
    as [E1 E2].
  rewrite Qle_bool_le in E1 by exact Hlive.
  rewrite (register_ok_store env st cn kc ctx ttl clk rnd kcy creds Hmax Hrange Hy Hx) in E1, E2.
  cbn [snd] in E1, E2.
  unfold admin_register.
  rewrite (register_ok_store env st cn kc ctx ttl clk rnd kcy creds Hmax Hrange Hy Hx).
  set (st1 := cleanup_expired_sessions (clk_sweep clk)
                (register_inserted st cn creds (clk_expiry clk + ttl) (clk_created clk) rnd))
    in *.
  set (R := length (sess_heap st)) in *.
  assert (G : get_session (generate_session_token rnd) now' st1 = (Some R, st1)).
  { unfold get_session. rewrite E1, E2. unfold is_expired. cbn [expires_at].
    apply Qle_bool_iff in Hnow. by rewrite Hnow. }
  cbn beta iota. rewrite G. cbn beta iota.
  set (C := length (client_heap st1)).
  set (s1 := mkSession (generate_session_token rnd) cn creds (clk_expiry clk + ttl)
               (clk_created clk) None) in *.
  set (st3 := mkStore (sessions st1) (<[R := set_k8s_client s1 C]> (sess_heap st1))
                (client_heap st1 ++ [mkDynClient creds None]) (releases st1)).
  assert (G3 : get_k8s_client R st1 = (Some C, st3)) by (unfold get_k8s_client; by rewrite E2).
  rewrite G3. cbn beta iota.
  assert (HR : R < length (sess_heap st1)) by (by eapply lookup_lt_Some).
  assert (H3 : client_heap st3 !! C = Some (mkDynClient creds None)).
  { unfold st3. cbn [client_heap]. rewrite lookup_app_r, Nat.sub_diag by (unfold C; lia).
    done. }
  set (st4 := get_api_client C st3).
  destruct (get_api_client_frame C st3) as [F1 F2].
  assert (H4s : sess_heap st4 !! R = Some (set_k8s_client s1 C)).
  { unfold st4. rewrite F2. unfold st3. cbn [sess_heap]. by rewrite list_lookup_insert_eq. }
  assert (H4c : client_heap st4 !! C = Some (mkDynClient creds (Some (mkApiClient false)))).
  { unfold st4, get_api_client. rewrite H3. cbn [dk_api_client client_heap dk_credentials].
    rewrite list_lookup_insert_eq; [done|]. by eapply lookup_lt_Some. }
  rewrite H4s. cbn beta iota.
  split; [by destruct (registration_success _ _ _ _ _ _) as [rr|[]]|].
  assert (Hst4 : ∀ rr : RegistrationResponse, (rr, st4).2 = st4) by done.
  split.
  - destruct (registration_success _ _ _ _ _ _) as [rr|[]]; cbn [snd];
      unfold st4; rewrite F1; exact E1.
  - exists C, (mkDynClient creds (Some (mkApiClient false))).
    destruct (registration_success _ _ _ _ _ _) as [rr|[]]; cbn [snd];
      (split; [unfold slot; by rewrite H4s|]); by split.
Qed.

(** X16: a registration with [ttl_hours <= 168] that passes extraction,
    whose expiry is a valid [datetime] not earlier than the sweep's clock
    reading nor than the endpoint's [get_session] reading [now'], and
    whose extracted api server and namespace are each a [str] or [None],
    is answered with [success=True], the new token, those two values, the
    expiry and status "connected" or "warning" according to the
    connectivity probe. Either way the probe has left the session's memo
    slot holding a handle built from the extracted credentials, with its
    [ApiClient] created. *)
Theorem admin_register_success (env : Env) (st : Store) (cn kc : string)
  (ctx : option string) (ttl : Q) (clk : RegisterClock) (now' : Q) (rnd : string)
  (probe : bool) (kcy : Yaml) (creds : KubernetesCredentials) (a n : option string)
  (Hmax : (ttl <= 168)%Q) (Hrange : datetime_in_range (clk_expiry clk + ttl) = true)
  (Hlive : (clk_sweep clk <= clk_expiry clk + ttl)%Q)
  (Hy : yaml_safe_load env kc = Some kcy) (Hx : extract_credentials env kcy ctx = Ok creds)
  (Hnow : (now' <= clk_expiry clk + ttl)%Q)
  (Ha : validate_str_or_none "api_server" (api_server creds) = Ok a)
  (Hn : validate_str_or_none "namespace" (namespace creds) = Ok n) :
  (admin_register env st cn kc ctx ttl clk now' rnd probe).1
    = mkRegistrationResponse true (Some (generate_session_token rnd)) (Some cn) a n
        (Some (if probe then "connected" else "warning")) (Some (clk_expiry clk + ttl)%Q) None
  ∧ ∃ c d, slot (length (sess_heap st)) (admin_register env st cn kc ctx ttl clk now' rnd probe).2
             = Some c
           ∧ client_heap (admin_register env st cn kc ctx ttl clk now' rnd probe).2 !! c
             = Some d
           ∧ dk_credentials d = creds ∧ dk_api_client d = Some (mkApiClient false).
Proof.
  destruct (admin_register_live env st cn kc ctx ttl clk now' rnd probe kcy creds
              Hmax Hrange Hlive Hy Hx Hnow) as (A & _ & B).
  split; [|exact B].
  rewrite A. unfold registration_success. by rewrite Ha, Hn.
Qed.

Lemma admin_register_success_witness :
  (admin_register env0 empty_store "c" "kubeconfig-a" None 24 clock_10_us 11 "x" false).1
    = mkRegistrationResponse true (Some (generate_session_token "x")) (Some "c")
        (Some "https://10.0.0.1:6443") (Some "default")
        (Some "warning") (Some (clk_expiry clock_10_us + 24)%Q) None.
Proof.
  assert (H1 : (24 <= 168)%Q) by (vm_compute; discriminate).
  assert (H2 : (clk_sweep clock_10_us <= clk_expiry clock_10_us + 24)%Q)
    by (vm_compute; discriminate).
  assert (H3 : (11 <= clk_expiry clock_10_us + 24)%Q) by (vm_compute; discriminate).
  exact (proj1 (admin_register_success env0 empty_store "c" "kubeconfig-a" None 24 clock_10_us
                  11 "x" false kubeconfig_a credentials_of_a _ _ H1 eq_refl H2 eq_refl eq_refl
                  H3 eq_refl eq_refl)).
Defined.






(** X17: the unregister endpoint reports [unregistered=True], with the
    session's cluster name, exactly when the token names a session that
    has not expired at the call. An expired session is reported as "not
    found or already expired" with cluster name "unknown", yet it is
    removed all the same. In every case the token is absent afterwards
    and no other entry changes. *)
Theorem admin_unregister_outcome (tok : string) (now : Q) (st : Store) :
  ur_unregistered (admin_unregister tok now st).1
    = match sessions st !! tok with
      | Some r => match sess_heap st !! r with
                  | Some s => negb (is_expired s now)
                  | None => true
                  end
      | None => false
      end
  ∧ ur_cluster_name (admin_unregister tok now st).1
    = match sessions st !! tok with
      | Some r => match sess_heap st !! r with
                  | Some s => if is_expired s now then "unknown" else cluster_name s
                  | None => "unknown"
                  end
      | None => "unknown"
      end
  ∧ sessions (admin_unregister tok now st).2 !! tok = None
  ∧ ∀ k, k ≠ tok → sessions (admin_unregister tok now st).2 !! k = sessions st !! k.
Proof.
  destruct (unregister_frame tok st) as [U1 U2].
  assert (Hu : ∀ r, sessions st !! tok = Some r →
            (unregister_cluster tok st).1 = true) by (intros r E; unfold unregister_cluster; by rewrite E).
  unfold admin_unregister, get_session.
  destruct (sessions st !! tok) as [r|] eqn:E.
  - destruct (sess_heap st !! r) as [s|] eqn:S.
    + destruct (is_expired s now) eqn:X; cbn beta iota.
      * cbn [fst snd]. rewrite U1. split; [done|]. split; [done|]. split; [apply lookup_delete_eq|].
        intros k Hk. by apply lookup_delete_ne.
      * rewrite S, (surjective_pairing (unregister_cluster tok st)), (Hu r eq_refl).
        cbn beta iota. cbn [fst snd]. rewrite U1. split; [done|]. split; [done|].
        split; [apply lookup_delete_eq|]. intros k Hk. by apply lookup_delete_ne.
    + cbn beta iota. rewrite S, (surjective_pairing (unregister_cluster tok st)), (Hu r eq_refl).
      cbn beta iota. cbn [fst snd]. rewrite U1. split; [done|]. split; [done|].
      split; [apply lookup_delete_eq|]. intros k Hk. by apply lookup_delete_ne.
  - cbn beta iota. split; [done|]. split; [done|]. split; [done|]. done.
Qed.

Lemma admin_unregister_outcome_witness :
  ur_unregistered (admin_unregister "holmes-session-x" 5 store_one_hour).1 = false
  ∧ sessions (admin_unregister "holmes-session-x" 5 store_one_hour).2 !! "holmes-session-x"
    = None.
Proof.
  destruct (admin_unregister_outcome "holmes-session-x" 5 store_one_hour) as (A & _ & B & _).
  split; [rewrite A; reflexivity | exact B].
Defined.

(** X18: the admin token check accepts a presented key exactly when it
    equals the value of [A2A_API_KEY] and that value is set and non-empty;
    when the variable is unset or empty every request is rejected, the
    empty key included. *)
Theorem verify_admin_token_accepts (admin_key : option string) (presented p : string) :
  verify_admin_token admin_key presented = Some p
  ↔ admin_key = Some presented ∧ presented ≠ "" ∧ p = presented.
Proof.
  unfold verify_admin_token, opt_str_truthy.
  destruct admin_key as [k|]; simpl.
  - destruct (String.eqb_spec k "") as [->|Hk]; simpl.
    + split; [discriminate|]. intros ([= ->] & Hp & _). done.
    + destruct (String.eqb_spec presented k) as [->|Hp]; simpl.
      * split; [intros [= <-]; done | intros (_ & _ & ->); done].
      * split; [discriminate|]. intros ([= ->] & _). done.
  - split; [discriminate | intros ([=] & _)].
Qed.

Lemma verify_admin_token_accepts_witness :
  verify_admin_token (Some "k") "k" = Some "k" ∧ verify_admin_token (Some "") "" ≠ Some "".
Proof.
  split.
  - apply (proj2 (verify_admin_token_accepts (Some "k") "k" "k")).
    split; [reflexivity|]. split; [discriminate | reflexivity].
  - intros H. apply (verify_admin_token_accepts (Some "") "" "") in H.
    destruct H as (_ & H & _). apply H. reflexivity.
Defined.
